(** * top-python-libs: the resolution-and-aggregation pipeline of [app.py]

    A shallow embedding of [src/app.py]: the identifier parser
    ([parse_github_repo]), the two metadata lookups
    ([get_github_repo_from_pypi], [get_github_repo_from_librariesio]),
    the resolver ([resolve_github_repo_from_package]), the dependents
    scraper ([get_repo_deps_via_github]) and the aggregator
    ([aggregate_statistics]).

    Conventions of the embedding.
    - A Python [str] is a [string]; its characters are read as code points
      0..255, so whitespace and case mapping are those of Python on that
      range.  Text outside that range is not covered.
    - The network is an oracle ([World]) from the requested URL to what
      [requests.get] does there.  Every function that performs a request
      returns its result together with the list of URLs it requested.
    - [try: ... except Exception] is a computation in [option] whose
      [None] is replaced by the handler's value.  An exception that no
      handler catches is a result [inl e] of a function that returns
      [exn + A].
    - The [st.cache_data] memoisation and the progress bar are not
      modelled: every call runs the function body. *)

From stdpp Require Import base strings gmap list sorting pretty.
From Stdlib Require Import ZArith Ascii String.

#[local] Set Warnings "-register-all".

Local Open Scope string_scope.
Local Open Scope Z_scope.

(** ** The Python built-ins the program uses *)

Module Py.

Definition code (c : ascii) : N := Ascii.N_of_ascii c.

Definition in_range (lo hi : N) (c : ascii) : bool :=
  ((lo <=? code c)%N && (code c <=? hi)%N)%bool.

(** [str.isspace] on one character, which is also what [\s] matches and
    what [str.strip] removes: TAB..CR, FS..US, SPACE, NEL and NBSP. *)
Definition isspace (c : ascii) : bool :=
  (in_range 9 13 c || in_range 28 32 c
   || (code c =? 133)%N || (code c =? 160)%N)%bool.

Definition isupper (c : ascii) : bool :=
  (in_range 65 90 c
   || (in_range 192 222 c && negb (code c =? 215)%N))%bool.

Definition lower_char (c : ascii) : ascii :=
  if isupper c then Ascii.ascii_of_N (code c + 32) else c.

Definition islower_cased (c : ascii) : bool :=
  (in_range 97 122 c
   || (in_range 224 254 c && negb (code c =? 247)%N))%bool.

Definition upper_char (c : ascii) : ascii :=
  if islower_cased c then Ascii.ascii_of_N (code c - 32) else c.

(** [s.lower()] *)
Fixpoint lower (s : string) : string :=
  match s with
  | EmptyString => EmptyString
  | String c s' => String (lower_char c) (lower s')
  end.

Fixpoint lstrip (s : string) : string :=
  match s with
  | EmptyString => EmptyString
  | String c s' => if isspace c then lstrip s' else s
  end.

Fixpoint rstrip (s : string) : string :=
  match s with
  | EmptyString => EmptyString
  | String c s' =>
      match rstrip s' with
      | EmptyString => if isspace c then EmptyString else String c EmptyString
      | r => String c r
      end
  end.

(** [s.strip()] *)
Definition strip (s : string) : string := rstrip (lstrip s).

(** [needle in hay] on two strings *)
Fixpoint contains (needle hay : string) : bool :=
  if String.prefix needle hay then true
  else match hay with
       | EmptyString => false
       | String _ hay' => contains needle hay'
       end.

(** Truth value of a string: [bool(s)] *)
Definition truthy_str (s : string) : bool :=
  match s with EmptyString => false | _ => true end.

(** [s.replace(c, "")] for a one-character [c] *)
Fixpoint remove_char (c : ascii) (s : string) : string :=
  match s with
  | EmptyString => EmptyString
  | String c' s' =>
      if Ascii.eqb c c' then remove_char c s' else String c' (remove_char c s')
  end.

Definition isdigit (c : ascii) : bool := in_range 48 57 c.

Fixpoint int_digits (acc : Z) (s : string) : option Z :=
  match s with
  | EmptyString => Some acc
  | String c s' =>
      if isdigit c then int_digits (10 * acc + Z.of_N (code c - 48)) s'
      else None
  end.

(** [sys.get_int_max_str_digits()], as CPython 3.11 and later set it *)
Definition int_max_str_digits : N := 4300.

(** [int(s)] on a string of decimal digits; [None] is [ValueError], which
    is what the empty string, every other character and a string of more
    than [int_max_str_digits] digits give here. *)
Definition int (s : string) : option Z :=
  match s with
  | EmptyString => None
  | _ =>
      if (int_max_str_digits <? N.of_nat (String.length s))%N then None
      else int_digits 0 s
  end.

(** The values [resp.json()] can produce. Of a number with a fraction or
    an exponent the program can observe the truth value only. *)
Inductive value : Type :=
| VNone
| VBool (b : bool)
| VInt (n : Z)
| VFloat (nonzero : bool)
| VStr (s : string)
| VList (l : list value)
| VDict (d : list (string * value)).

(** [bool(v)] *)
Definition truthy (v : value) : bool :=
  match v with
  | VNone => false
  | VBool b => b
  | VInt n => negb (n =? 0)
  | VFloat nz => nz
  | VStr s => truthy_str s
  | VList l => match l with [] => false | _ => true end
  | VDict d => match d with [] => false | _ => true end
  end.

Fixpoint assoc (k : string) (d : list (string * value)) : option value :=
  match d with
  | [] => None
  | (k', v) :: d' => if String.eqb k k' then Some v else assoc k d'
  end.

(** [v.get(k, default)]: [None] is the [AttributeError] raised when [v]
    is not a dict. *)
Definition get (v : value) (k : string) (default : value) : option value :=
  match v with
  | VDict d => Some (match assoc k d with Some x => x | None => default end)
  | _ => None
  end.

(** [v.values()], in insertion order; only dicts have it. *)
Definition values (v : value) : option (list value) :=
  match v with
  | VDict d => Some (map snd d)
  | _ => None
  end.

(** [a or b] *)
Definition or_ (a b : value) : value := if truthy a then a else b.

End Py.

(** ** The fragment of [re] the program uses *)

Module Re.

(** Patterns: literals, one character of a class, a greedy class
    repetition [[...]+], concatenation, the capturing group (the patterns
    of this program have at most one) and [$]. *)
Inductive regex : Type :=
| Eps
| Chr (c : ascii)
| Cls (p : ascii → bool)
| Plus (p : ascii → bool)
| Cat (r1 r2 : regex)
| Grp (r : regex)
| Eos.

Fixpoint lit (s : string) : regex :=
  match s with
  | EmptyString => Eps
  | String c s' => Cat (Chr c) (lit s')
  end.

(** What was consumed between the subject [s] and its suffix [s']. *)
Definition consumed (s s' : string) : string :=
  String.substring 0 (String.length s - String.length s')%nat s.

Definition chr_eq (ic : bool) (c c' : ascii) : bool :=
  if ic then Ascii.eqb (Py.lower_char c) (Py.lower_char c') else Ascii.eqb c c'.

Definition cls_in (ic : bool) (p : ascii → bool) (c : ascii) : bool :=
  if ic then (p c || p (Py.lower_char c) || p (Py.upper_char c))%bool else p c.

Section Exec.
Context {R : Type}.
Variable ic : bool.   (* re.IGNORECASE *)

(** Greedy [[p]+] with backtracking: take one more character while that
    leads to a match, otherwise stop here. *)
Fixpoint plus_bt (p : ascii → bool) (s : string)
    (k : string → option R) : option R :=
  match s with
  | EmptyString => None
  | String c s' =>
      if cls_in ic p c then
        match plus_bt p s' k with
        | Some x => Some x
        | None => k s'
        end
      else None
  end.

Fixpoint exec (r : regex) (s : string) (cap : option string)
    (k : string → option string → option R) : option R :=
  match r with
  | Eps => k s cap
  | Chr c =>
      match s with
      | String c' s' => if chr_eq ic c c' then k s' cap else None
      | EmptyString => None
      end
  | Cls p =>
      match s with
      | String c' s' => if cls_in ic p c' then k s' cap else None
      | EmptyString => None
      end
  | Plus p => plus_bt p s (λ s', k s' cap)
  | Cat r1 r2 => exec r1 s cap (λ s' cap', exec r2 s' cap' k)
  | Grp r1 => exec r1 s cap (λ s' _, k s' (Some (consumed s s')))
  | Eos =>
      match s with
      | EmptyString => k s cap
      | String c EmptyString =>
          if Ascii.eqb c "010"%char then k s cap else None
      | _ => None
      end
  end.
End Exec.

(** A match object: [group(0)] and [group(1)]. *)
Record match_obj : Type := { group0 : string; group1 : option string }.

(** [re.match(r, s, flags)] *)
Definition match_ (ic : bool) (r : regex) (s : string) : option match_obj :=
  exec ic r s None (λ s' cap, Some {| group0 := consumed s s'; group1 := cap |}).

(** [re.search(r, s, flags)]: the leftmost position with a match *)
Fixpoint search (ic : bool) (r : regex) (s : string) : option match_obj :=
  match match_ ic r s with
  | Some m => Some m
  | None =>
      match s with
      | EmptyString => None
      | String _ s' => search ic r s'
      end
  end.

(** [re.split] for a pattern [[p]+]: the pieces between the maximal runs
    of [p]-characters, empty pieces at the two ends included.  [cur] is
    the piece being read, reversed; [run] says that the previous
    character belonged to a separator run. *)
Fixpoint split_go (p : ascii → bool) (cur : string) (run : bool)
    (s : string) : list string :=
  match s with
  | EmptyString => [String.rev cur]
  | String c s' =>
      if p c then
        if run then split_go p cur true s'
        else String.rev cur :: split_go p EmptyString true s'
      else split_go p (String c cur) false s'
  end.

Definition split_plus (p : ascii → bool) (s : string) : list string :=
  split_go p EmptyString false s.

End Re.

(** ** The outside world *)

(** What the program reads of a response: [resp.status_code],
    [resp.json()] ([None] when the body is not JSON and the call raises)
    and, of [BeautifulSoup(resp.text, "html.parser")], the text nodes of
    the page in document order. *)
Record response : Type := {
  status_code : Z;
  json : option Py.value;
  strings : list string
}.

(** The exceptions that reach the caller of a function of the program:
    the [KeyError] of a missing column, and the error that reading
    [st.secrets] raises when the application has no secrets file:
    [StreamlitSecretNotFoundError], a [FileNotFoundError] (older
    releases of Streamlit raise [FileNotFoundError] itself). *)
Inductive exn : Type :=
| KeyError (key : string)
| StreamlitSecretNotFoundError.

#[global] Instance exn_eq_dec : EqDecision exn.
Proof. solve_decision. Defined.

(** [requests_get url] is what [requests.get(url, timeout=10)] does:
    [None] when it raises (network error, timeout).  [secrets] is the
    content of the secrets file, from a key to its value ([None] for a
    key that is not in the file); [secrets] itself is [None] when there
    is no secrets file.  Secrets are strings. *)
Record World : Type := {
  requests_get : string → option response;
  secrets : option (string → option string)
}.

(** [st.secrets.get(key)]: the value, Python's [None] for a key the file
    does not have, and an exception when there is no file to read. *)
Definition st_secrets_get (w : World) (key : string) : exn + option string :=
  match secrets w with
  | Some file => inr (file key)
  | None => inl StreamlitSecretNotFoundError
  end.

(** The value configured for [key], if any *)
Definition secrets_get (w : World) (key : string) : option string :=
  file ← secrets w; file key.

(** Computations that record the URLs they request. *)
Definition M (A : Type) : Type := A * list string.

Definition ret {A : Type} (a : A) : M A := (a, []).

Definition bind {A B : Type} (m : M A) (f : A → M B) : M B :=
  let r := f m.1 in (r.1, (m.2 ++ r.2)%list).

Notation "'do' x <- m ; k" := (bind m (λ x, k))
  (at level 10, x name, m at level 100, k at level 200).

Definition result {A : Type} (m : M A) : A := m.1.
Definition requested {A : Type} (m : M A) : list string := m.2.

(** Sequencing when the first computation may raise: its exception ends
    the whole computation. *)
Definition bind_exn {A B : Type} (m : M (exn + A)) (f : A → M (exn + B))
    : M (exn + B) :=
  do r <- m;
  match r with
  | inl e => ret (inl e)
  | inr a => f a
  end.

Notation "'do!' x <- m ; k" := (bind_exn m (λ x, k))
  (at level 10, x name, m at level 100, k at level 200).

Definition request (w : World) (url : string) : M (option response) :=
  (requests_get w url, [url]).

(** [try: body except Exception: handler] *)
Definition try_except {A : Type} (body : option A) (handler : A) : A :=
  match body with Some a => a | None => handler end.

(** ** Identifier parser *)

Definition chr_is (c : ascii) : ascii → bool := Ascii.eqb c.

Definition not_slash (c : ascii) : bool := negb (chr_is "/" c).

(** The class [[A-Za-z0-9_\-\.]] *)
Definition id_char (c : ascii) : bool :=
  (Py.in_range 65 90 c || Py.in_range 97 122 c || Py.in_range 48 57 c
   || chr_is "_" c || chr_is "-" c || chr_is "." c)%bool.

(** [github\.com\/([^/]+\/[^/]+)] *)
Definition github_url_re : Re.regex :=
  Re.Cat (Re.lit "github.com/")
    (Re.Grp (Re.Cat (Re.Plus not_slash)
               (Re.Cat (Re.Chr "/") (Re.Plus not_slash)))).

(** [^[A-Za-z0-9_\-\.]+\/[A-Za-z0-9_\-\.]+$]; it is used with [re.match],
    which anchors at the start, so [^] adds nothing. *)
Definition owner_repo_re : Re.regex :=
  Re.Cat (Re.Plus id_char)
    (Re.Cat (Re.Chr "/") (Re.Cat (Re.Plus id_char) Re.Eos)).

Definition group_1 (m : Re.match_obj) : string :=
  match Re.group1 m with Some g => g | None => "" end.

(** The first [if] of [parse_github_repo]: what it returns, or [None]
    when control falls through to the second. *)
Definition url_form (repo_str : string) : option string :=
  if Py.contains "github.com" repo_str then
    match Re.search false github_url_re (Py.strip repo_str) with
    | Some m => Some (Py.strip (group_1 m))
    | None => None
    end
  else None.

Definition parse_github_repo (repo_str : string) : string :=
  match url_form repo_str with
  | Some r => r
  | None =>
      match Re.match_ false owner_repo_re (Py.strip repo_str) with
      | Some _ => Py.strip repo_str
      | None => ""
      end
  end.

(** ** Resolution through the registry *)

(** The [for url in urls_to_check] loop: [None] when it raises,
    [Some None] when it runs to the end, [Some (Some id)] when it returns
    [id]. *)
Fixpoint scan_urls (urls : list Py.value) : option (option string) :=
  match urls with
  | [] => Some None
  | url :: rest =>
      if Py.truthy url then
        match url with
        | Py.VStr u =>
            if Py.contains "github.com" (Py.lower u) then
              let repo_id := parse_github_repo u in
              if Py.truthy_str repo_id then Some (Some repo_id)
              else scan_urls rest
            else scan_urls rest
        | _ => None
        end
      else scan_urls rest
  end.

Definition urls_to_check (info : Py.value) : option (list Py.value) :=
  pu ← Py.get info "project_urls" (Py.VDict []);
  let project_urls := Py.or_ pu (Py.VDict []) in
  home_page ← Py.get info "home_page" (Py.VStr "");
  vals ← Py.values project_urls;
  Some ([home_page] ++ vals)%list.

Definition pypi_body (resp : response) : option string :=
  if status_code resp =? 200 then
    data ← json resp;
    info ← Py.get data "info" (Py.VDict []);
    urls ← urls_to_check info;
    found ← scan_urls urls;
    Some (match found with Some repo_id => repo_id | None => "" end)
  else Some "".

Definition pypi_url (pkg_name : string) : string :=
  "https://pypi.org/pypi/" ++ pkg_name ++ "/json".

Definition get_github_repo_from_pypi (w : World) (pkg_name : string)
    : M string :=
  do resp <- request w (pypi_url pkg_name);
  ret (try_except (resp ≫= pypi_body) "").

(** ** Dependents count *)

(** The class [[0-9,]] *)
Definition digit_or_comma (c : ascii) : bool :=
  (Py.in_range 48 57 c || chr_is "," c)%bool.

(** [[0-9,]+\s+Repositories] *)
Definition repositories_re : Re.regex :=
  Re.Cat (Re.Plus digit_or_comma)
    (Re.Cat (Re.Plus Py.isspace) (Re.lit "Repositories")).

(** [([0-9,]+)] *)
Definition count_re : Re.regex := Re.Grp (Re.Plus digit_or_comma).

Definition is_match (o : option Re.match_obj) : bool :=
  match o with Some _ => true | None => false end.

(** [soup.find(string=pattern)]: the first text node in which the
    compiled pattern (no flags) is found. *)
Definition soup_find (pattern : Re.regex) (nodes : list string)
    : option string :=
  List.find (λ node, is_match (Re.search false pattern node)) nodes.

Definition deps_body (r : response) : option Z :=
  if negb (status_code r =? 200) then Some 0
  else
    let repo_deps := 0 in
    match soup_find repositories_re (strings r) with
    | Some repo_deps_str =>
        if Py.truthy_str repo_deps_str then
          match Re.search true count_re repo_deps_str with
          | Some count_search =>
              n ← Py.int (Py.remove_char "," (group_1 count_search));
              Some (repo_deps + n)
          | None => Some repo_deps
          end
        else Some repo_deps
    | None => Some repo_deps
    end.

Definition dependents_url (github_id : string) : string :=
  "https://github.com/" ++ github_id ++ "/network/dependents".

Definition get_repo_deps_via_github (w : World) (github_id : string) : M Z :=
  do r <- request w (dependents_url github_id);
  ret (try_except (r ≫= deps_body) 0).

(** ** Resolution through the fallback service *)

Definition API_KEY : string := "LIBRARIES_IO_API_KEY".

(** How an f-string prints [st.secrets.get(...)] *)
Definition format_secret (o : option string) : string :=
  match o with Some s => s | None => "None" end.

(** The f-string of line 107 for a value [key] of the secret *)
Definition librariesio_url_for (key : option string) (pkg_name : string)
    : string :=
  "https://libraries.io/api/pypi/" ++ pkg_name ++ "?api_key="
  ++ format_secret key.

(** The address of the fallback service in a world with a secrets file *)
Definition librariesio_url (w : World) (pkg_name : string) : string :=
  librariesio_url_for (secrets_get w API_KEY) pkg_name.

(** The body of the [try]; [Some None] when it falls through to the
    final [return ""]. *)
Definition librariesio_body (resp : response) : option (option string) :=
  if status_code resp =? 200 then
    data ← json resp;
    repo_url ← Py.get data "repository_url" (Py.VStr "");
    if Py.truthy repo_url then
      match repo_url with
      | Py.VStr u =>
          if Py.contains "github.com" (Py.lower u) then
            let repo_id := parse_github_repo u in
            if Py.truthy_str repo_id then Some (Some repo_id) else Some None
          else Some None
      | _ => None
      end
    else Some None
  else Some None.

(** The URL is built before the [try], so an exception of
    [st.secrets.get] leaves the function. *)
Definition get_github_repo_from_librariesio (w : World) (pkg_name : string)
    : M (exn + string) :=
  do! key <- ret (st_secrets_get w API_KEY);
  let url := librariesio_url_for key pkg_name in
  do resp <- request w url;
  ret (inr (match try_except (resp ≫= librariesio_body) None with
            | Some repo_id => repo_id
            | None => ""
            end)).

Definition truthy_secret (o : option string) : bool :=
  match o with Some s => Py.truthy_str s | None => false end.

(** [not repo_id and st.secrets.get(...)] reads the secret only when
    [repo_id] is empty; the read is outside any [try]. *)
Definition resolve_github_repo_from_package (w : World) (pkg_name : string)
    : M (exn + string) :=
  do repo_id <- get_github_repo_from_pypi w pkg_name;
  if negb (Py.truthy_str repo_id) then
    (do! key <- ret (st_secrets_get w API_KEY);
     if truthy_secret key then get_github_repo_from_librariesio w pkg_name
     else ret (inr repo_id))
  else ret (inr repo_id).

(** ** The result table *)

(** One record of [results]; [None] is Python's [None].  A count is an
    integer.  In the frame pandas keeps the counts in a numeric column,
    of 64-bit floating point numbers once a count is missing; such a
    column holds every count up to 2^53 as it is ([exact_count]).  Where
    the counts of a frame are compared with the counts the loop
    produced, it is for records in that range. *)
Record ResultRow : Type := {
  Name : string;
  Number_of_dependents : option Z;
  GitHub_Repo : option string;
  Dependents_Page : option string
}.

Definition COLUMNS : list string :=
  ["Name"; "Number of dependents"; "GitHub Repo"; "Dependents Page"].

(** A data frame: its column labels and its records, in row order. *)
Record DataFrame : Type := {
  columns : list string;
  records : list ResultRow
}.

(** [pd.DataFrame(results)] on a list of dicts: the columns are the keys
    of the dicts, so a frame built from no dict has no column. *)
Definition pd_DataFrame (results : list ResultRow) : DataFrame :=
  {| columns := match results with [] => [] | _ => COLUMNS end;
     records := results |}.

(** The counts a 64-bit floating point column holds without rounding *)
Definition exact_count (r : ResultRow) : Prop :=
  ∀ n, Number_of_dependents r = Some n → n ≤ 2 ^ 53.

(** The order [sort_values(ascending=False)] puts two counts in: larger
    first, missing values last ([na_position] is left at ["last"]). *)
Definition count_ge (a b : option Z) : Prop :=
  match a, b with
  | Some x, Some y => y ≤ x
  | _, None => True
  | None, Some _ => False
  end.

Definition row_ge (r1 r2 : ResultRow) : Prop :=
  count_ge (Number_of_dependents r1) (Number_of_dependents r2).

(** The reordering done by [sort_values(by="Number of dependents",
    ascending=False)].  The call leaves [kind] at its default,
    ["quicksort"], which pandas documents as not stable. *)
Class SortValues : Type := {
  reorder : list ResultRow → list ResultRow
}.

(** What pandas documents of the reordering: it permutes the records and
    leaves the column in the order [count_ge]. *)
Class SortValuesLaws `{SortValues} : Prop := {
  reorder_perm : ∀ l, reorder l ≡ₚ l;
  reorder_sorted : ∀ l, Sorted row_ge (reorder l)
}.

Section Aggregator.
Context `{SortValues}.

(** [df.sort_values(by=by, ascending=False).reset_index(drop=True)];
    a label that is not a column raises [KeyError]. *)
Definition sort_values (df : DataFrame) (by_ : string) : exn + DataFrame :=
  if bool_decide (by_ ∈ columns df) then
    inr {| columns := columns df; records := reorder (records df) |}
  else inl (KeyError by_).

(** [[,\n\s]] *)
Definition separator (c : ascii) : bool :=
  (chr_is "," c || chr_is "010" c || Py.isspace c)%bool.

(** Step 1 of [aggregate_statistics]: the items of the input text *)
Definition tokenize (input_text : string) : list string :=
  let raw_items := Re.split_plus separator (Py.strip input_text) in
  map Py.strip (List.filter (λ x, Py.truthy_str (Py.strip x)) raw_items).

(** The repository a loop iteration attributes to [lib] *)
Definition repo_of_item (w : World) (lib : string) : M (exn + string) :=
  let gh_repo := parse_github_repo lib in
  if negb (Py.truthy_str gh_repo)
  then resolve_github_repo_from_package w lib
  else ret (inr gh_repo).

Definition unknown_row (lib : string) : ResultRow :=
  {| Name := lib; Number_of_dependents := None;
     GitHub_Repo := None; Dependents_Page := None |}.

(** One iteration of the [for] loop on the state
    [(added_gh_repos, results)] *)
Definition loop_body (w : World) (st : gset string * list ResultRow)
    (lib : string) : M (exn + gset string * list ResultRow) :=
  let '(added_gh_repos, results) := st in
  do! gh_repo <- repo_of_item w lib;
  if bool_decide (gh_repo ∈ added_gh_repos)
  then ret (inr (added_gh_repos, results))
  else if Py.truthy_str gh_repo then
    do deps_count <- get_repo_deps_via_github w gh_repo;
    let github_link := "https://github.com/" ++ gh_repo in
    let dependents_link := github_link ++ "/network/dependents" in
    ret (inr ({[gh_repo]} ∪ added_gh_repos,
              (results ++ [{| Name := lib;
                             Number_of_dependents := Some deps_count;
                             GitHub_Repo := Some github_link;
                             Dependents_Page := Some dependents_link |}])%list))
  else ret (inr (added_gh_repos, (results ++ [unknown_row lib])%list)).

(** The [for] loop; an exception of an iteration ends it. *)
Fixpoint loop (w : World) (items : list string)
    (st : gset string * list ResultRow)
    : M (exn + gset string * list ResultRow) :=
  match items with
  | [] => ret (inr st)
  | lib :: items' => do! st' <- loop_body w st lib; loop w items' st'
  end.

Definition aggregate_statistics (w : World) (input_text : string)
    : M (exn + DataFrame) :=
  let items := tokenize input_text in
  do! st <- loop w items (∅, []);
  let df := pd_DataFrame st.2 in
  ret (sort_values df "Number of dependents").

End Aggregator.

(** ** The reordering of [sort_values] *)

#[global] Instance count_ge_dec (a b : option Z) : Decision (count_ge a b).
Proof. destruct a, b; simpl; apply _. Defined.

#[global] Instance row_ge_dec (r1 r2 : ResultRow) : Decision (row_ge r1 r2).
Proof. unfold row_ge; apply _. Defined.

#[global] Instance count_ge_trans : Transitive count_ge.
Proof. intros [x|] [y|] [z|]; simpl; try done; lia. Qed.

#[global] Instance count_ge_total : Total count_ge.
Proof. intros [x|] [y|]; simpl; try lia; by left. Qed.

#[global] Instance count_ge_antisymm : AntiSymm (=) count_ge.
Proof. intros [x|] [y|]; simpl; try done. intros; f_equal; lia. Qed.

#[global] Instance row_ge_trans : Transitive row_ge.
Proof. intros x y z; unfold row_ge; apply count_ge_trans. Qed.

#[global] Instance row_ge_total : Total row_ge.
Proof. intros x y; unfold row_ge; apply count_ge_total. Qed.

(** A stable reordering that has the documented properties: a merge
    sort of the records *)
Definition merge_reorder : SortValues :=
  {| reorder := merge_sort row_ge |}.

#[global] Instance merge_reorder_laws : @SortValuesLaws merge_reorder.
Proof.
  split; intros l.
  - apply (merge_sort_Permutation row_ge).
  - apply (Sorted_merge_sort row_ge).
Qed.

(** *** The reordering pandas performs

    [sort_values] sorts one column with [nargsort], which hands the known
    counts to [ndarray.argsort(kind="quicksort")].  What follows is
    NumPy's index quicksort ([aquicksort_] of [npysort/quicksort.cpp]):
    an introsort on the array [tosort] of indices into the values [v],
    with a median of three, a partition that also swaps equal values,
    insertion sort on ranges of at most 17 elements and heap sort
    ([aheapsort_]) when the recursion gets too deep.  Builds of NumPy
    that hand 64-bit values to a vectorised sort leave equal values in
    another order; what is proved with this model is that equal counts
    do not keep their input order, not which order they get. *)

Module Numpy.

(** [tosort[i]] and [v[tosort[i]]] *)
Definition at_ (tosort : list nat) (i : Z) : nat :=
  default 0%nat (tosort !! Z.to_nat i).

Definition key (v : list Z) (tosort : list nat) (i : Z) : Z :=
  default 0 (v !! at_ tosort i).

Definition set (tosort : list nat) (i : Z) (x : nat) : list nat :=
  <[Z.to_nat i := x]> tosort.

(** [INTP_SWAP(tosort[i], tosort[j])] *)
Definition swap (tosort : list nat) (i j : Z) : list nat :=
  set (set tosort i (at_ tosort j)) j (at_ tosort i).

(** [do { ++pi; } while (v[*pi] < vp);] *)
Fixpoint scan_up (fuel : nat) (v : list Z) (a : list nat) (vp pi : Z) : Z :=
  match fuel with
  | O => pi
  | S fuel' =>
      if key v a (pi + 1) <? vp then scan_up fuel' v a vp (pi + 1) else pi + 1
  end.

(** [do { --pj; } while (vp < v[*pj]);] *)
Fixpoint scan_down (fuel : nat) (v : list Z) (a : list nat) (vp pj : Z) : Z :=
  match fuel with
  | O => pj
  | S fuel' =>
      if vp <? key v a (pj - 1) then scan_down fuel' v a vp (pj - 1) else pj - 1
  end.

(** The [for (;;)] loop of the partition *)
Fixpoint partition_loop (fuel : nat) (v : list Z) (a : list nat)
    (vp pi pj : Z) : list nat * Z :=
  match fuel with
  | O => (a, pi)
  | S fuel' =>
      let pi := scan_up (List.length a) v a vp pi in
      let pj := scan_down (List.length a) v a vp pj in
      if pj <=? pi then (a, pi)
      else partition_loop fuel' v (swap a pi pj) vp pi pj
  end.

(** One partition of [pl..pr]: the indices and the place of the pivot *)
Definition partition (v : list Z) (a : list nat) (pl pr : Z) : list nat * Z :=
  let pm := pl + Z.shiftr (pr - pl) 1 in
  let a := if key v a pm <? key v a pl then swap a pm pl else a in
  let a := if key v a pr <? key v a pm then swap a pr pm else a in
  let a := if key v a pm <? key v a pl then swap a pm pl else a in
  let vp := key v a pm in
  let pi := pl in
  let pj := pr - 1 in
  let a := swap a pm pj in
  let '(a, pi) := partition_loop (List.length a) v a vp pi pj in
  let pk := pr - 1 in
  (swap a pi pk, pi).

(** [while (pj > pl && vp < v[*pk]) { *pj-- = *pk--; } *pj = vi;] *)
Fixpoint insert_down (fuel : nat) (v : list Z) (a : list nat) (pl : Z)
    (vi : nat) (vp pj : Z) : list nat :=
  match fuel with
  | O => set a pj vi
  | S fuel' =>
      if ((pl <? pj) && (vp <? key v a (pj - 1)))%bool
      then insert_down fuel' v (set a pj (at_ a (pj - 1))) pl vi vp (pj - 1)
      else set a pj vi
  end.

Fixpoint insertion_go (count : nat) (v : list Z) (a : list nat)
    (pl pi : Z) : list nat :=
  match count with
  | O => a
  | S count' =>
      let vi := at_ a pi in
      let vp := default 0 (v !! vi) in
      insertion_go count' v (insert_down (List.length a) v a pl vi vp pi)
        pl (pi + 1)
  end.

(** [for (pi = pl + 1; pi <= pr; ++pi)] *)
Definition insertion_sort (v : list Z) (a : list nat) (pl pr : Z) : list nat :=
  insertion_go (Z.to_nat (pr - pl)) v a pl (pl + 1).

(** The sift loop of the heap sort on the range that starts at [pl];
    position [k] of the heap is [tosort[pl + k - 1]]. *)
Fixpoint sift (fuel : nat) (v : list Z) (a : list nat) (pl n : Z)
    (tmp : nat) (i j : Z) : list nat :=
  match fuel with
  | O => set a (pl + i - 1) tmp
  | S fuel' =>
      if j <=? n then
        let j :=
          if ((j <? n) && (key v a (pl + j - 1) <? key v a (pl + j)))%bool
          then j + 1 else j in
        if default 0 (v !! tmp) <? key v a (pl + j - 1) then
          sift fuel' v (set a (pl + i - 1) (at_ a (pl + j - 1))) pl n tmp j (j + j)
        else set a (pl + i - 1) tmp
      else set a (pl + i - 1) tmp
  end.

(** [for (l = n >> 1; l > 0; --l)] *)
Fixpoint heapify (count : nat) (v : list Z) (a : list nat) (pl n l : Z)
    : list nat :=
  match count with
  | O => a
  | S count' =>
      let tmp := at_ a (pl + l - 1) in
      heapify count' v (sift (List.length a) v a pl n tmp l (Z.shiftl l 1))
        pl n (l - 1)
  end.

(** [for (; n > 1;)] *)
Fixpoint heap_extract (count : nat) (v : list Z) (a : list nat) (pl n : Z)
    : list nat :=
  match count with
  | O => a
  | S count' =>
      let tmp := at_ a (pl + n - 1) in
      let a := set a (pl + n - 1) (at_ a pl) in
      let n := n - 1 in
      heap_extract count' v (sift (List.length a) v a pl n tmp 1 2) pl n
  end.

Definition aheapsort (v : list Z) (a : list nat) (pl n : Z) : list nat :=
  let a := heapify (Z.to_nat (Z.shiftr n 1)) v a pl n (Z.shiftr n 1) in
  heap_extract (Z.to_nat (n - 1)) v a pl n.

Definition SMALL_QUICKSORT : Z := 16.

(** The outer [while (1)] on the range [pl..pr] with depth budget
    [cdepth].  The budget is looked at when a range is taken from the
    stack ([top]), not when the inner [while] goes on with the smaller
    part of a partition. *)
Fixpoint aquicksort_go (fuel : nat) (v : list Z) (a : list nat)
    (pl pr cdepth : Z) (top : bool) : list nat :=
  match fuel with
  | O => a
  | S fuel' =>
      if (top && (cdepth <? 0))%bool then aheapsort v a pl (pr - pl + 1)
      else if SMALL_QUICKSORT <? pr - pl then
        let '(a, pi) := partition v a pl pr in
        let cdepth := cdepth - 1 in
        if pi - pl <? pr - pi then
          let a := aquicksort_go fuel' v a pl (pi - 1) cdepth false in
          aquicksort_go fuel' v a (pi + 1) pr cdepth true
        else
          let a := aquicksort_go fuel' v a (pi + 1) pr cdepth false in
          aquicksort_go fuel' v a pl (pi - 1) cdepth true
      else insertion_sort v a pl pr
  end.

(** The position of the highest bit that is set *)
Definition npy_get_msb (n : Z) : Z := Z.log2 n.

(** [v.argsort(kind="quicksort")] *)
Definition argsort (v : list Z) : list nat :=
  let num := Z.of_nat (List.length v) in
  aquicksort_go (S (List.length v)) v (seq 0 (List.length v))
    0 (num - 1) (npy_get_msb num * 2) true.

End Numpy.

(** [nargsort(items, kind="quicksort", ascending=False,
    na_position="last")] of pandas: the known counts and their positions
    are reversed, the counts are sorted in increasing order by
    [argsort], the resulting order is reversed, and the positions of the
    missing counts follow. *)
Definition nargsort (items : list (option Z)) : list nat :=
  let idx := seq 0 (List.length items) in
  let mask := λ i, bool_decide (items !! i = Some None) in
  let nonnans := reverse (omap id items) in
  let nonnan_idx := reverse (List.filter (λ i, negb (mask i)) idx) in
  let nan_idx := List.filter mask idx in
  let indexer :=
    (λ i, default 0%nat (nonnan_idx !! i)) <$> Numpy.argsort nonnans in
  (reverse indexer ++ nan_idx)%list.

(** [df.take(indexer)] on the records *)
Definition take_rows (indexer : list nat) (rows : list ResultRow)
    : list ResultRow :=
  omap (λ i, rows !! i) indexer.

(** The reordering of pandas on NumPy's index quicksort *)
Definition numpy_quicksort : SortValues :=
  {| reorder := λ rows, take_rows (nargsort (Number_of_dependents <$> rows)) rows |}.

(** ** The shape of a repository id *)

Fixpoint all_chars (p : ascii → bool) (s : string) : bool :=
  match s with
  | EmptyString => true
  | String c s' => (p c && all_chars p s')%bool
  end.

(** The pieces of [s] between its ['/'] characters *)
Fixpoint segments (s : string) : list string :=
  match s with
  | EmptyString => [EmptyString]
  | String c s' =>
      if chr_is "/" c then EmptyString :: segments s'
      else match segments s' with
           | seg :: segs => String c seg :: segs
           | [] => [String c EmptyString]
           end
  end.

Definition segment_ok (seg : string) : bool :=
  (Py.truthy_str seg && all_chars id_char seg)%bool.

(** [owner/repo]: two non-empty segments of letters, digits, [_], [-]
    and [.] joined by one ['/']. *)
Definition repository_id (s : string) : bool :=
  match segments s with
  | [owner; repo] => (segment_ok owner && segment_ok repo)%bool
  | _ => false
  end.

(** ** Worlds used as concrete inputs *)

(** No request succeeds and the secrets file holds no secret. *)
Definition offline : World :=
  {| requests_get := λ _, None; secrets := Some (λ _, None) |}.

(** No request succeeds and the application has no secrets file. *)
Definition without_secrets_file : World :=
  {| requests_get := λ _, None; secrets := None |}.

(** Every request is answered with status 200 by an HTML page whose text
    nodes are [nodes]. *)
Definition serving (nodes : list string) : World :=
  {| requests_get := λ _,
       Some {| status_code := 200; json := None; strings := nodes |};
     secrets := Some (λ _, None) |}.

(** The integer of the "<digits> Repositories" phrase of a text node, read
    as the specification words it: the digits are those of the phrase. *)
Definition spec_phrase_count (node : string) : option Z :=
  m ← Re.search false
         (Re.Cat (Re.Grp (Re.Plus digit_or_comma))
            (Re.Cat (Re.Plus Py.isspace) (Re.lit "Repositories")))
         node;
  Py.int (Py.remove_char "," (group_1 m)).

(** The registry knows [numpy]: its home page is the project site and its
    named URLs end with the source repository.  Nothing else answers. *)
Definition numpy_metadata : Py.value :=
  Py.VDict
    [("info",
      Py.VDict
        [("home_page", Py.VStr "https://numpy.org");
         ("project_urls",
          Py.VDict
            [("Homepage", Py.VStr "https://numpy.org");
             ("Source", Py.VStr "https://github.com/numpy/numpy");
             ("Tracker", Py.VStr "https://github.com/numpy/numpy/issues")])])].

Definition registry_with_numpy : World :=
  {| requests_get := λ url,
       if String.eqb url (pypi_url "numpy") then
         Some {| status_code := 200; json := Some numpy_metadata; strings := [] |}
       else None;
     secrets := Some (λ _, None) |}.

(** The registry knows nothing; the fallback service, for which a key is
    configured, knows the repository of every package. *)
Definition fallback_only : World :=
  {| requests_get := λ url,
       if String.prefix "https://libraries.io/" url then
         Some {| status_code := 200;
                 json := Some (Py.VDict
                   [("repository_url", Py.VStr "https://github.com/psf/requests")]);
                 strings := [] |}
       else None;
     secrets := Some (λ _, Some "k3y") |}.

(** The records the loop of [aggregate_statistics] appends, in input
    order, when the loop comes to its end *)
Definition emitted (w : World) (input_text : string) : exn + list ResultRow :=
  match result (loop w (tokenize input_text) (∅, [])) with
  | inl e => inl e
  | inr st => inr (snd st)
  end.

#[global] Instance ResultRow_eq_dec : EqDecision ResultRow.
Proof. solve_decision. Defined.

Definition has_count (c : option Z) (r : ResultRow) : Prop :=
  Number_of_dependents r = c.

#[global] Instance has_count_dec c r : Decision (has_count c r).
Proof. unfold has_count; apply _. Defined.

(** Ties broken by input order: the records of each known count stand in
    the output as they stood in the input. *)
Definition ties_in_input_order (input output : list ResultRow) : Prop :=
  ∀ c : Z, filter (has_count (Some c)) output = filter (has_count (Some c)) input.

Definition known_row (w : World) (lib gh_repo : string) : ResultRow :=
  {| Name := lib;
     Number_of_dependents := Some (result (get_repo_deps_via_github w gh_repo));
     GitHub_Repo := Some ("https://github.com/" ++ gh_repo);
     Dependents_Page :=
       Some (("https://github.com/" ++ gh_repo) ++ "/network/dependents") |}.

(** An item at which the resolver reads the secrets: it is no repository
    id and the registry gives nothing for it. *)
Definition needs_secret (w : World) (lib : string) : Prop :=
  parse_github_repo lib = ""
  ∧ result (get_github_repo_from_pypi w lib) = "".

#[global] Instance needs_secret_dec w lib : Decision (needs_secret w lib).
Proof. unfold needs_secret; apply _. Defined.

(** An item that resolves to no repository *)
Definition unresolved (w : World) (lib : string) : Prop :=
  result (repo_of_item w lib) = inr "".

#[global] Instance unresolved_dec w lib : Decision (unresolved w lib).
Proof. unfold unresolved; apply _. Defined.

Definition page (nodes : list string) : option response :=
  Some {| status_code := 200; json := None; strings := nodes |}.

(** Three repositories with 5, 0 and 12 dependents; the registry is down. *)
Definition ranking_world : World :=
  {| requests_get := λ url,
       if String.eqb url (dependents_url "a/five") then page ["5 Repositories"]
       else if String.eqb url (dependents_url "b/zero") then page ["0 Repositories"]
       else if String.eqb url (dependents_url "d/twelve") then page ["12 Repositories"]
       else None;
     secrets := Some (λ _, None) |}.

(** A world whose dependents pages give counts that the numeric column
    of the frame holds as they are *)
Definition exact_counts (w : World) : Prop :=
  ∀ github_id, result (get_repo_deps_via_github w github_id) ≤ 2 ^ 53.

(** The 601 repositories [x/r1], [x/r2], ... [x/r601] *)
Definition tied_items : list string :=
  (λ i : nat, "x/r" ++ pretty i) <$> seq 1 601.

(** The text that names them in this order, a space after each *)
Definition tied_text : string :=
  foldr (λ item text, item ++ " " ++ text) "" tied_items.

(** The records of these items when no request succeeds: no dependents
    page can be read, so every count is 0. *)
Definition tied_rows : list ResultRow :=
  (λ item, known_row offline item item) <$> tied_items.

(** A candidate the scan passes over: a URL without the domain marker in
    any casing, or a value that is false (an absent or empty URL). *)
Definition skipped (url : Py.value) : Prop :=
  match url with
  | Py.VStr u => Py.contains "github.com" (Py.lower u) = false
  | _ => Py.truthy url = false
  end.

(** ** Further predicates and worlds *)

Definition stops (p : ascii → bool) (rest : string) : Prop :=
  match rest with
  | EmptyString => True
  | String c _ => p c = false
  end.

Definition not_space (c : ascii) : bool := negb (Py.isspace c).

(** A candidate the scan goes past: one it skips, or a URL with the
    marker that the parser rejects. *)
Definition passed_over (url : Py.value) : Prop :=
  skipped url ∨ ∃ u, url = Py.VStr u ∧ parse_github_repo u = "".

Definition no_digit_or_comma (c : ascii) : bool := negb (digit_or_comma c).

Definition not_separator (c : ascii) : bool := negb (separator c).

(** The non-empty pieces that [split_go] yields from a state *)
Definition pieces (cur : string) (run : bool) (s : string) : list string :=
  List.filter Py.truthy_str (Re.split_go separator cur run s).

(** What a record of the table looks like: nothing is known, or a
    repository with one ['/'] in its id, its count, its page and the
    address its count was read from. *)
Definition row_shape (r : ResultRow) : Prop :=
  (Number_of_dependents r = None ∧ GitHub_Repo r = None
   ∧ Dependents_Page r = None)
  ∨ ∃ (gh : string) (n : Z),
      List.length (segments gh) = 2%nat ∧ 0 ≤ n
      ∧ Number_of_dependents r = Some n
      ∧ GitHub_Repo r = Some ("https://github.com/" ++ gh)
      ∧ Dependents_Page r = Some (dependents_url gh).

(** Where a run may send a request *)
Definition request_target (w : World) (url : string) : Prop :=
  (∃ pkg_name, url = pypi_url pkg_name)
  ∨ (∃ github_id, url = dependents_url github_id)
  ∨ (truthy_secret (secrets_get w API_KEY) = true
     ∧ ∃ pkg_name, url = librariesio_url w pkg_name).

(** The seen set holds the repository of every record, and no two
    records have the same repository. *)
Definition seen_inv (st : gset string * list ResultRow) : Prop :=
  (∀ r link, r ∈ st.2 → GitHub_Repo r = Some link →
     ∃ gh, gh ∈ st.1 ∧ link = "https://github.com/" ++ gh)
  ∧ NoDup (omap GitHub_Repo st.2).

(** The registry lists a home page whose domain is written in capitals,
    which the parser does not accept, before the source repository. *)
Definition registry_shouting : World :=
  {| requests_get := λ url,
       if String.eqb url (pypi_url "numpy") then
         Some {| status_code := 200;
                 json := Some (Py.VDict
                   [("info",
                     Py.VDict
                       [("home_page", Py.VStr "https://GitHub.com/numpy/numpy");
                        ("project_urls",
                         Py.VDict
                           [("Source", Py.VStr "https://github.com/numpy/numpy")])])]);
                 strings := [] |}
       else None;
     secrets := Some (λ _, None) |}.

(** The registry lists a number among the named URLs, before the source
    repository. *)
Definition registry_with_number : World :=
  {| requests_get := λ url,
       if String.eqb url (pypi_url "numpy") then
         Some {| status_code := 200;
                 json := Some (Py.VDict
                   [("info",
                     Py.VDict
                       [("home_page", Py.VStr "https://numpy.org");
                        ("project_urls",
                         Py.VDict
                           [("Downloads", Py.VInt 7);
                            ("Source", Py.VStr "https://github.com/numpy/numpy")])])]);
                 strings := [] |}
       else None;
     secrets := Some (λ _, None) |}.

(** Both services know [numpy], under different repositories, and a key
    is configured. *)
Definition both_services : World :=
  {| requests_get := λ url,
       if String.eqb url (pypi_url "numpy") then
         Some {| status_code := 200; json := Some numpy_metadata; strings := [] |}
       else if String.prefix "https://libraries.io/" url then
         Some {| status_code := 200;
                 json := Some (Py.VDict
                   [("repository_url", Py.VStr "https://github.com/someone/fork")]);
                 strings := [] |}
       else None;
     secrets := Some (λ _, Some "k3y") |}.

(** Every request is answered with status 404. *)
Definition not_found : World :=
  {| requests_get := λ _,
       Some {| status_code := 404; json := None; strings := ["Not Found"] |};
     secrets := Some (λ _, None) |}.

(** ** Identifier parser: properties *)

(** *** The matcher *)

Lemma append_cons (c : ascii) (a b : string) :
  String c a ++ b = String c (a ++ b).
Proof. reflexivity. Qed.

Lemma plus_bt_Some {R : Type} (ic : bool) (p : ascii → bool) (s : string)
    (k : string → option R) (x : R) :
  Re.plus_bt ic p s k = Some x →
  ∃ pre rest, s = pre ++ rest ∧ pre ≠ ""
              ∧ all_chars (Re.cls_in ic p) pre = true ∧ k rest = Some x.
Proof.
  induction s as [|c s IH]; simpl; [done|].
  destruct (Re.cls_in ic p c) eqn:Hc; [|done].
  destruct (Re.plus_bt ic p s k) eqn:Hrec.
  - intros [= ->]. destruct (IH eq_refl) as (pre & rest & -> & _ & Hall & Hk).
    exists (String c pre), rest. rewrite append_cons; simpl. by rewrite Hc, Hall.
  - intros Hk. exists (String c ""), s. simpl. by rewrite Hc.
Qed.

Lemma exec_lit {R : Type} (l s : string) (cap : option string)
    (k : string → option string → option R) (x : R) :
  Re.exec false (Re.lit l) s cap k = Some x →
  ∃ rest, s = l ++ rest ∧ k rest cap = Some x.
Proof.
  revert s. induction l as [|c l IH]; intros s; simpl.
  { intros Hk. by exists s. }
  destruct s as [|c' s]; [done|].
  destruct (Ascii.eqb c c') eqn:Hc; [|done].
  apply Ascii.eqb_eq in Hc as <-.
  intros (rest & -> & Hk)%IH. by exists rest.
Qed.

Lemma append_empty_r (a : string) : a ++ "" = a.
Proof. induction a as [|c a IH]; [done|]. by rewrite append_cons, IH. Qed.

Lemma length_app_string (a b : string) :
  String.length (a ++ b) = (String.length a + String.length b)%nat.
Proof. induction a as [|c a IH]; [done|]. rewrite append_cons; simpl. by rewrite IH. Qed.

Lemma substring_0_app (a b : string) :
  String.substring 0 (String.length a) (a ++ b) = a.
Proof.
  induction a as [|c a IH]; [by destruct b|].
  rewrite append_cons; simpl. by rewrite IH.
Qed.

Lemma consumed_app (a b : string) : Re.consumed (a ++ b) b = a.
Proof.
  unfold Re.consumed. rewrite length_app_string.
  replace (String.length a + String.length b - String.length b)%nat
    with (String.length a) by lia.
  apply substring_0_app.
Qed.

Lemma app_string_assoc (a b c : string) : (a ++ b) ++ c = a ++ (b ++ c).
Proof. induction a as [|x a IH]; [done|]. rewrite !append_cons. by rewrite IH. Qed.

Lemma search_Some (ic : bool) (r : Re.regex) (s : string) (m : Re.match_obj) :
  Re.search ic r s = Some m → ∃ skipped t, s = skipped ++ t ∧ Re.match_ ic r t = Some m.
Proof.
  induction s as [|c s IH]; simpl.
  - destruct (Re.match_ ic r "") eqn:Hm; [|done]. intros [= ->]. by exists "", "".
  - destruct (Re.match_ ic r (String c s)) eqn:Hm.
    + intros [= ->]. by exists "", (String c s).
    + intros (sk & t & -> & Ht)%IH. by exists (String c sk), t.
Qed.

(** What a match of the URL pattern captures *)
Lemma github_url_re_group (t : string) (m : Re.match_obj) :
  Re.match_ false github_url_re t = Some m →
  ∃ owner repo,
    Re.group1 m = Some (owner ++ String "/" repo)
    ∧ owner ≠ "" ∧ repo ≠ ""
    ∧ all_chars not_slash owner = true ∧ all_chars not_slash repo = true.
Proof.
  unfold Re.match_, github_url_re.
  cbn [Re.exec].
  intros (rest & -> & Hgrp)%exec_lit.
  cbn [Re.exec] in Hgrp.
  apply plus_bt_Some in Hgrp as (owner & rest1 & -> & Howner & Hall1 & Hk).
  destruct rest1 as [|c rest2]; [done|].
  unfold Re.chr_eq in Hk.
  destruct (Ascii.eqb "/" c) eqn:Hc; [|done].
  apply Ascii.eqb_eq in Hc as <-.
  apply plus_bt_Some in Hk as (repo & rest3 & -> & Hrepo & Hall2 & Hk).
  injection Hk as <-. simpl.
  exists owner, repo. split; [|done].
  f_equal.
  replace (owner ++ String "/" (repo ++ rest3))
    with ((owner ++ String "/" repo) ++ rest3).
  - apply consumed_app.
  - by rewrite app_string_assoc.
Qed.

Lemma owner_repo_re_match (t : string) (m : Re.match_obj) :
  Re.match_ false owner_repo_re t = Some m →
  ∃ owner repo tail,
    t = owner ++ String "/" (repo ++ tail)
    ∧ owner ≠ "" ∧ repo ≠ ""
    ∧ all_chars id_char owner = true ∧ all_chars id_char repo = true
    ∧ (tail = "" ∨ tail = String "010" "").
Proof.
  unfold Re.match_, owner_repo_re. cbn [Re.exec].
  intros (owner & rest1 & -> & Howner & Hall1 & Hk)%plus_bt_Some.
  destruct rest1 as [|c rest2]; [done|].
  unfold Re.chr_eq in Hk.
  destruct (Ascii.eqb "/" c) eqn:Hc; [|done].
  apply Ascii.eqb_eq in Hc as <-.
  apply plus_bt_Some in Hk as (repo & tail & -> & Hrepo & Hall2 & Hk).
  exists owner, repo, tail. repeat (split; [done|]).
  destruct tail as [|c [|c' tail]]; [by left| |done].
  destruct (Ascii.eqb c "010") eqn:Hc; [|done].
  apply Ascii.eqb_eq in Hc as ->. by right.
Qed.

Lemma rstrip_last (s a : string) (c : ascii) :
  Py.rstrip s = a ++ String c "" → Py.isspace c = false.
Proof.
  revert a. induction s as [|x s IH]; intros a; simpl.
  { by destruct a. }
  destruct (Py.rstrip s) as [|y r] eqn:Hr.
  - destruct (Py.isspace x) eqn:Hx.
    + by destruct a.
    + destruct a as [|x' [|? ?]]; [|done..]. by intros [= <-].
  - destruct a as [|x' a]; [done|].
    rewrite append_cons. intros [= <- Ha]. by apply (IH a).
Qed.

Lemma all_chars_impl (p q : ascii → bool) (s : string) :
  (∀ c, p c = true → q c = true) →
  all_chars p s = true → all_chars q s = true.
Proof.
  intros Hpq. induction s as [|c s IH]; simpl; [done|].
  intros [Hc Hs]%andb_true_iff. by rewrite (Hpq c Hc), IH.
Qed.

Lemma id_char_not_slash (c : ascii) : id_char c = true → not_slash c = true.
Proof. by destruct c as [[] [] [] [] [] [] [] []]. Qed.

Lemma isspace_not_slash (c : ascii) : Py.isspace c = true → chr_is "/" c = false.
Proof. by destruct c as [[] [] [] [] [] [] [] []]. Qed.

Lemma segments_no_slash (r : string) :
  all_chars not_slash r = true → segments r = [r].
Proof.
  induction r as [|c r IH]; [done|]. cbn [all_chars segments].
  intros [Hc Hr]%andb_true_iff. rewrite (IH Hr).
  unfold not_slash in Hc. by destruct (chr_is "/" c).
Qed.

Lemma segments_app_slash (o r : string) :
  all_chars not_slash o = true →
  segments (o ++ String "/" r) = o :: segments r.
Proof.
  induction o as [|c o IH]; [done|]. cbn [all_chars].
  intros [Hc Ho]%andb_true_iff. rewrite append_cons. cbn [segments].
  rewrite (IH Ho). unfold not_slash in Hc. by destruct (chr_is "/" c).
Qed.

Lemma segments_nonempty (s : string) : segments s ≠ [].
Proof.
  induction s as [|c s IH]; [done|]. cbn [segments].
  destruct (chr_is "/" c); [done|]. by destruct (segments s).
Qed.

Lemma segments_length_cons (c : ascii) (s : string) :
  chr_is "/" c = false →
  List.length (segments (String c s)) = List.length (segments s).
Proof.
  intros Hc. cbn [segments]. rewrite Hc.
  destruct (segments s) eqn:Hs; [by apply segments_nonempty in Hs|done].
Qed.

Lemma segments_length_lstrip (s : string) :
  List.length (segments (Py.lstrip s)) = List.length (segments s).
Proof.
  induction s as [|c s IH]; [done|]. cbn [Py.lstrip].
  destruct (Py.isspace c) eqn:Hc; [|done].
  by rewrite IH, segments_length_cons by by apply isspace_not_slash.
Qed.

Lemma segments_length_rstrip (s : string) :
  List.length (segments (Py.rstrip s)) = List.length (segments s).
Proof.
  induction s as [|c s IH]; [done|]. cbn [Py.rstrip].
  destruct (chr_is "/" c) eqn:Hslash.
  - assert (Py.isspace c = false) as Hc.
    { destruct (Py.isspace c) eqn:E; [|done].
      apply isspace_not_slash in E. congruence. }
    rewrite Hc.
    assert (∀ x, List.length (segments (String c x)) = S (List.length (segments x))) as Hcons.
    { intros x. cbn [segments]. by rewrite Hslash. }
    rewrite (Hcons s), <-IH. by destruct (Py.rstrip s); rewrite Hcons.
  - rewrite (segments_length_cons c s Hslash), <-IH.
    destruct (Py.rstrip s) as [|y r].
    + destruct (Py.isspace c); [done|]. by rewrite segments_length_cons.
    + by rewrite segments_length_cons.
Qed.

Lemma segments_length_strip (s : string) :
  List.length (segments (Py.strip s)) = List.length (segments s).
Proof.
  unfold Py.strip. by rewrite segments_length_rstrip, segments_length_lstrip.
Qed.

(** A result of the URL form has exactly one ['/']. *)
Lemma url_form_one_slash (s r : string) :
  url_form s = Some r → List.length (segments r) = 2%nat.
Proof.
  unfold url_form. destruct (Py.contains _ _); [|done].
  destruct (Re.search _ _ _) as [m|] eqn:Hsearch; [|done].
  intros [= <-].
  apply search_Some in Hsearch as (_ & t & _ & Hm).
  apply github_url_re_group in Hm as (owner & repo & Hg & _ & _ & Ho & Hr).
  unfold group_1. rewrite Hg, segments_length_strip.
  by rewrite segments_app_slash, segments_no_slash.
Qed.

(** A result of the direct form is a repository id. *)
Lemma direct_form_repository_id (s : string) :
  url_form s = None → parse_github_repo s ≠ "" →
  repository_id (parse_github_repo s) = true.
Proof.
  unfold parse_github_repo. intros ->.
  destruct (Re.match_ _ _ _) as [m|] eqn:Hm; [|done]. intros _.
  apply owner_repo_re_match in Hm
    as (owner & repo & tail & Ht & Ho & Hr & Hoc & Hrc & [->| ->]).
  - rewrite Ht. unfold repository_id.
    rewrite append_empty_r.
    rewrite segments_app_slash, segments_no_slash
      by (eapply all_chars_impl; [apply id_char_not_slash|done]).
    unfold segment_ok. rewrite Hoc, Hrc.
    by destruct owner, repo.
  - exfalso. unfold Py.strip in Ht.
    replace (owner ++ String "/" (repo ++ String "010" ""))
      with ((owner ++ String "/" repo) ++ String "010" "") in Ht.
    + by apply rstrip_last in Ht.
    + by rewrite app_string_assoc, append_cons.
Qed.

(** *** The documented values *)

(** C9: the four documented values of the identifier parser: a full URL
    and a bare domain path give the [owner/repo] behind the domain (what
    follows the second segment is ignored), a word without ['/'] gives
    the empty result, and a direct [owner/repo] is returned as it is. *)
Theorem parse_github_repo_examples :
  parse_github_repo "https://github.com/numpy/numpy" = "numpy/numpy"
  ∧ parse_github_repo "github.com/numpy/numpy/" = "numpy/numpy"
  ∧ parse_github_repo "numpy" = ""
  ∧ parse_github_repo "pandas-dev/pandas" = "pandas-dev/pandas".
Proof. repeat split; reflexivity. Qed.

(** C3 (fails on the URL form): the claim is that every non-empty result
    of the parser is a repository id.  For a URL with a fragment the
    parser returns the fragment as part of the second segment, which is
    then not made of letters, digits, [_], [-] and [.] only. *)
Theorem parse_github_repo_url_keeps_fragment :
  parse_github_repo "https://github.com/numpy/numpy#readme" = "numpy/numpy#readme"
  ∧ repository_id (parse_github_repo "https://github.com/numpy/numpy#readme") = false.
Proof. split; reflexivity. Qed.

(** ** Dependents count: properties *)

(** The cases in which the count is 0 without a parse: the request
    raises, the status is not 200, or no text node has the phrase. *)
Lemma get_repo_deps_zero (w : World) (github_id : string) :
  (requests_get w (dependents_url github_id) = None →
   result (get_repo_deps_via_github w github_id) = 0)
  ∧ (∀ r, requests_get w (dependents_url github_id) = Some r →
          status_code r ≠ 200 →
          result (get_repo_deps_via_github w github_id) = 0)
  ∧ (∀ r, requests_get w (dependents_url github_id) = Some r →
          soup_find repositories_re (strings r) = None →
          result (get_repo_deps_via_github w github_id) = 0).
Proof.
  unfold get_repo_deps_via_github, request, bind, result; simpl.
  split; [|split].
  - by intros ->.
  - intros r -> Hst; simpl. unfold deps_body.
    apply Z.eqb_neq in Hst. by rewrite Hst.
  - intros r -> Hfind; simpl. unfold deps_body. rewrite Hfind.
    by destruct (negb _).
Qed.

(** C5 (fails when a number stands before the phrase): the claim is that
    the count is the integer of the "<digits> Repositories" phrase.  The
    count is read from the first run of digits and commas of the text
    node, so with a number before the phrase in the same node it is that
    number (3) and not the one of the phrase (1234). *)
Theorem get_repo_deps_reads_first_number :
  let node := "Used by 3 Packages and 1,234 Repositories" in
  result (get_repo_deps_via_github (serving [node]) "numpy/numpy") = 3
  ∧ spec_phrase_count node = Some 1234.
Proof. split; reflexivity. Qed.

(** C6 (fails): the claim is that the phrase is found in any letter
    casing.  The pattern given to [soup.find] is compiled without flags,
    so a page that spells the word in lower case gives 0, while the same
    page with a capital gives 1234. *)
Theorem get_repo_deps_is_case_sensitive :
  result (get_repo_deps_via_github (serving ["1,234 repositories"]) "numpy/numpy") = 0
  ∧ result (get_repo_deps_via_github (serving ["1,234 Repositories"]) "numpy/numpy") = 1234.
Proof. split; reflexivity. Qed.

(** ** Aggregator: the loop *)

Lemma truthy_str_false (s : string) : Py.truthy_str s = false ↔ s = "".
Proof. destruct s; simpl; split; congruence. Qed.

Lemma truthy_str_true (s : string) : Py.truthy_str s = true ↔ s ≠ "".
Proof. destruct s; simpl; split; congruence. Qed.

Lemma requested_bind {A B : Type} (m : M A) (f : A → M B) :
  requested (bind m f) = (requested m ++ requested (f (result m)))%list.
Proof. reflexivity. Qed.

(** The state one iteration leaves, by the three branches of the body;
    an exception of the resolver ends the iteration. *)
Lemma bind_exn_result {A B : Type} (m : M (exn + A)) (f : A → M (exn + B)) :
  result (bind_exn m f)
  = match result m with
    | inl e => inl e
    | inr a => result (f a)
    end.
Proof. destruct m as [[e|a] l]; reflexivity. Qed.

Lemma loop_body_result (w : World) (added : gset string)
    (results : list ResultRow) (lib : string) :
  result (loop_body w (added, results) lib) =
    match result (repo_of_item w lib) with
    | inl e => inl e
    | inr gh_repo =>
        inr (if bool_decide (gh_repo ∈ added) then (added, results)
             else if Py.truthy_str gh_repo
                  then ({[gh_repo]} ∪ added,
                        (results ++ [known_row w lib gh_repo])%list)
                  else (added, (results ++ [unknown_row lib])%list))
    end.
Proof.
  unfold loop_body. rewrite bind_exn_result.
  destruct (result (repo_of_item w lib)) as [e|gh_repo]; [done|].
  destruct (bool_decide _); [done|].
  destruct (Py.truthy_str _); done.
Qed.

Lemma loop_cons (w : World) (lib : string) (items : list string)
    (st : gset string * list ResultRow) :
  result (loop w (lib :: items) st) =
  match result (loop_body w st lib) with
  | inl e => inl e
  | inr st' => result (loop w items st')
  end.
Proof. cbn [loop]. apply bind_exn_result. Qed.

(** The loop keeps the empty id out of the seen set, and the records
    without a count are those of the unresolved items, one each. *)
Lemma loop_unknown_rows (w : World) (items : list string) :
  ∀ (added : gset string) (results : list ResultRow)
    (st' : gset string * list ResultRow),
    "" ∉ added →
    result (loop w items (added, results)) = inr st' →
    ("" ∉ fst st')
    ∧ filter (has_count None) (snd st') =
      (filter (has_count None) results
       ++ (unknown_row <$> filter (unresolved w) items))%list.
Proof.
  induction items as [|lib items IH]; intros added results st' Hinv.
  { intros [= <-]. split; [done|]. simpl. by rewrite app_nil_r. }
  rewrite loop_cons, loop_body_result.
  destruct (result (repo_of_item w lib)) as [e|gh] eqn:Hgh; [done|].
  destruct (bool_decide_reflect (gh ∈ added)) as [Hin|Hin].
  - assert (¬ unresolved w lib) as Hres.
    { unfold unresolved. rewrite Hgh. intros [= ->]. done. }
    rewrite filter_cons_False by done. by apply IH.
  - destruct (Py.truthy_str gh) eqn:Ht.
    + apply truthy_str_true in Ht.
      assert (¬ unresolved w lib) as Hres.
      { unfold unresolved. rewrite Hgh. by intros [= ->]. }
      rewrite filter_cons_False by done.
      assert ("" ∉ {[gh]} ∪ added) as Hinv'.
      { intros [E%elem_of_singleton|E]%elem_of_union; [by rewrite <-E in Ht|done]. }
      intros Hloop.
      destruct (IH _ (results ++ [known_row w lib gh])%list st' Hinv' Hloop)
        as [IH1 IH2].
      split; [done|]. rewrite IH2, filter_app.
      rewrite (filter_cons_False _ (known_row _ _ _)) by done.
      by rewrite filter_nil, app_nil_r.
    + apply truthy_str_false in Ht. subst gh.
      assert (unresolved w lib) as Hres by done.
      rewrite filter_cons_True by done.
      intros Hloop.
      destruct (IH added (results ++ [unknown_row lib])%list st' Hinv Hloop)
        as [IH1 IH2].
      split; [done|]. rewrite IH2, filter_app.
      rewrite (filter_cons_True _ (unknown_row _)) by done.
      rewrite filter_nil, fmap_cons. by rewrite <-app_assoc.
Qed.

(** The loop never removes a record. *)
Lemma loop_results_extend (w : World) (items : list string) :
  ∀ (added : gset string) (results : list ResultRow)
    (st' : gset string * list ResultRow),
    result (loop w items (added, results)) = inr st' →
    ∃ more, snd st' = (results ++ more)%list.
Proof.
  induction items as [|lib items IH]; intros added results st'.
  { intros [= <-]. exists []. simpl. by rewrite app_nil_r. }
  rewrite loop_cons, loop_body_result.
  destruct (result (repo_of_item w lib)) as [e|gh]; [done|].
  destruct (bool_decide _); [apply IH|].
  destruct (Py.truthy_str _); intros [more ->]%IH;
    eexists; by rewrite <-app_assoc.
Qed.

(** With at least one item the loop appends at least one record: nothing
    is seen yet when the first item is handled. *)
Lemma loop_emits_first (w : World) (lib : string) (items : list string)
    (st' : gset string * list ResultRow) :
  result (loop w (lib :: items) (∅, [])) = inr st' → snd st' ≠ [].
Proof.
  rewrite loop_cons, loop_body_result.
  destruct (result (repo_of_item w lib)) as [e|gh]; [done|].
  rewrite bool_decide_eq_false_2 by set_solver.
  destruct (Py.truthy_str _); intros [more ->]%loop_results_extend; done.
Qed.

(** *** When the loop raises *)

Lemma resolve_result (w : World) (pkg_name : string) :
  result (resolve_github_repo_from_package w pkg_name)
  = if negb (Py.truthy_str (result (get_github_repo_from_pypi w pkg_name)))
    then match st_secrets_get w API_KEY with
         | inl e => inl e
         | inr key =>
             if truthy_secret key
             then result (get_github_repo_from_librariesio w pkg_name)
             else inr (result (get_github_repo_from_pypi w pkg_name))
         end
    else inr (result (get_github_repo_from_pypi w pkg_name)).
Proof.
  unfold resolve_github_repo_from_package, bind, result. cbn [fst].
  destruct (negb _); [|done].
  unfold bind_exn, bind, ret; cbn [fst].
  destruct (st_secrets_get w API_KEY) as [e|key]; [done|].
  by destruct (truthy_secret key).
Qed.

Lemma st_secrets_get_cases (w : World) (key : string) :
  (secrets w = None ∧ st_secrets_get w key = inl StreamlitSecretNotFoundError)
  ∨ (secrets w ≠ None ∧ st_secrets_get w key = inr (secrets_get w key)).
Proof.
  unfold st_secrets_get, secrets_get.
  destruct (secrets w) as [file|]; [right|left]; done.
Qed.

Lemma librariesio_result (w : World) (pkg_name : string) :
  result (get_github_repo_from_librariesio w pkg_name)
  = match st_secrets_get w API_KEY with
    | inl e => inl e
    | inr key =>
        inr (match try_except (requests_get w (librariesio_url_for key pkg_name)
                                 ≫= librariesio_body) None with
             | Some repo_id => repo_id
             | None => ""
             end)
    end.
Proof.
  unfold get_github_repo_from_librariesio. rewrite bind_exn_result.
  cbn [ret result fst]. by destruct (st_secrets_get w API_KEY).
Qed.

(** With a secrets file the fallback lookup returns. *)
Lemma librariesio_returns (w : World) (pkg_name : string) :
  secrets w ≠ None →
  result (get_github_repo_from_librariesio w pkg_name)
  = inr (match try_except (requests_get w (librariesio_url w pkg_name)
                             ≫= librariesio_body) None with
         | Some repo_id => repo_id
         | None => ""
         end).
Proof.
  intros Hfile. rewrite librariesio_result.
  destruct (st_secrets_get_cases w API_KEY) as [[? _]|[_ ->]]; done.
Qed.

(** The resolver raises exactly when it has to read a secret (the
    registry gave nothing) and there is no secrets file. *)
Lemma resolve_raises (w : World) (pkg_name : string) (e : exn) :
  result (resolve_github_repo_from_package w pkg_name) = inl e
  ↔ e = StreamlitSecretNotFoundError
    ∧ secrets w = None
    ∧ result (get_github_repo_from_pypi w pkg_name) = "".
Proof.
  rewrite resolve_result.
  destruct (Py.truthy_str (result (get_github_repo_from_pypi w pkg_name)))
    eqn:Hprimary; cbn [negb].
  - apply truthy_str_true in Hprimary. split; [done|]. by intros (_ & _ & ?).
  - apply truthy_str_false in Hprimary.
    destruct (st_secrets_get_cases w API_KEY) as [[Hfile ->]|[Hfile ->]].
    + split; [by intros [= <-]|by intros (-> & _ & _)].
    + destruct (truthy_secret _).
      * rewrite librariesio_returns by done. split; [done|]. by intros (_ & ? & _).
      * split; [done|]. by intros (_ & ? & _).
Qed.

Lemma repo_of_item_result (w : World) (lib : string) :
  result (repo_of_item w lib)
  = if negb (Py.truthy_str (parse_github_repo lib))
    then result (resolve_github_repo_from_package w lib)
    else inr (parse_github_repo lib).
Proof. unfold repo_of_item. by destruct (negb _). Qed.

Lemma repo_of_item_raises (w : World) (lib : string) (e : exn) :
  result (repo_of_item w lib) = inl e
  ↔ e = StreamlitSecretNotFoundError ∧ secrets w = None ∧ needs_secret w lib.
Proof.
  rewrite repo_of_item_result. unfold needs_secret.
  destruct (Py.truthy_str (parse_github_repo lib)) eqn:Hparse; cbn [negb].
  - apply truthy_str_true in Hparse. split; [done|]. by intros (_ & _ & ? & _).
  - apply truthy_str_false in Hparse. rewrite resolve_raises.
    split; [intros (? & ? & ?)|intros (? & ? & _ & ?)]; done.
Qed.

(** The loop raises exactly when one of its items does. *)
Lemma loop_raises (w : World) (items : list string) :
  ∀ (st : gset string * list ResultRow) (e : exn),
    result (loop w items st) = inl e
    ↔ e = StreamlitSecretNotFoundError
      ∧ secrets w = None ∧ Exists (needs_secret w) items.
Proof.
  induction items as [|lib items IH]; intros [added results] e.
  { split; [done|]. intros (_ & _ & Hex). by apply Exists_nil in Hex. }
  rewrite loop_cons, loop_body_result, Exists_cons.
  destruct (result (repo_of_item w lib)) as [e'|gh] eqn:Hgh.
  - apply repo_of_item_raises in Hgh as (-> & Hfile & Hneeds).
    split; [|by intros (-> & _ & _)].
    intros [= <-]. split; [done|]. split; [done|]. by left.
  - assert (¬ (secrets w = None ∧ needs_secret w lib)) as Hnot.
    { intros [Hfile Hneeds].
      assert (result (repo_of_item w lib) = inl StreamlitSecretNotFoundError)
        as Hraise by by apply repo_of_item_raises.
      congruence. }
    rewrite IH. split.
    + intros (-> & Hfile & Hex). split; [done|]. split; [done|]. by right.
    + intros (-> & Hfile & [Hneeds|Hex]); [by destruct Hnot|done].
Qed.

Lemma loop_returns (w : World) (items : list string)
    (st : gset string * list ResultRow) :
  ¬ (secrets w = None ∧ Exists (needs_secret w) items) →
  ∃ st', result (loop w items st) = inr st'.
Proof.
  intros Hnot. destruct (result (loop w items st)) as [e|st'] eqn:Hloop.
  - apply loop_raises in Hloop as (_ & ? & ?). by destruct Hnot.
  - by exists st'.
Qed.

(** Items that are repository ids as they stand, all different and none
    of them seen, give one record each, in their order. *)
Lemma loop_direct_items (w : World) (items : list string) :
  ∀ (added : gset string) (results : list ResultRow),
    Forall (λ lib, parse_github_repo lib = lib ∧ lib ≠ "") items →
    NoDup items →
    Forall (λ lib, lib ∉ added) items →
    ∃ added',
      result (loop w items (added, results))
      = inr (added',
             (results ++ ((λ lib, known_row w lib lib) <$> items))%list).
Proof.
  induction items as [|lib items IH]; intros added results Hdirect Hdup Hnew.
  { exists added. cbn. by rewrite app_nil_r. }
  apply Forall_cons in Hdirect as [[Hparse Hne] Hdirect].
  apply NoDup_cons in Hdup as [Hlib Hdup].
  apply Forall_cons in Hnew as [Hfresh Hnew].
  rewrite loop_cons, loop_body_result, repo_of_item_result, Hparse.
  apply truthy_str_true in Hne. rewrite Hne. cbn [negb].
  rewrite bool_decide_eq_false_2 by done. cbv iota. rewrite Hne.
  destruct (IH ({[lib]} ∪ added) (results ++ [known_row w lib lib])%list)
    as [added' ->]; [done|done| |].
  - apply Forall_forall.
    intros lib' Hin [->%elem_of_singleton|Hold]%elem_of_union; [done|].
    by apply (proj1 (Forall_forall _ _) Hnew lib').
  - exists added'. by rewrite <-app_assoc.
Qed.

(** ** Aggregator: the items *)

Lemma split_go_separators (p : ascii → bool) (run : bool) (s : string) :
  all_chars p s = true → Forall (λ x, x = "") (Re.split_go p "" run s).
Proof.
  revert run. induction s as [|c s IH]; intros run; cbn [all_chars Re.split_go].
  { intros _. by repeat constructor. }
  intros [Hc Hs]%andb_true_iff. rewrite Hc.
  destruct run; [by apply IH|]. constructor; [done|by apply IH].
Qed.

Lemma all_chars_lstrip (p : ascii → bool) (s : string) :
  all_chars p s = true → all_chars p (Py.lstrip s) = true.
Proof.
  induction s as [|c s IH]; [done|]. cbn [Py.lstrip].
  destruct (Py.isspace c); [|done].
  cbn [all_chars]. intros [_ Hs]%andb_true_iff. by apply IH.
Qed.

Lemma all_chars_rstrip (p : ascii → bool) (s : string) :
  all_chars p s = true → all_chars p (Py.rstrip s) = true.
Proof.
  induction s as [|c s IH]; [done|]. cbn [Py.rstrip all_chars].
  intros [Hc Hs]%andb_true_iff. specialize (IH Hs).
  destruct (Py.rstrip s) as [|y r].
  - destruct (Py.isspace c); [done|]. cbn [all_chars]. by rewrite Hc.
  - cbn [all_chars] in *. by rewrite Hc, IH.
Qed.

(** A text of separators only has no item. *)
Lemma tokenize_separators (input_text : string) :
  all_chars separator input_text = true → tokenize input_text = [].
Proof.
  intros Hsep. unfold tokenize, Re.split_plus.
  assert (all_chars separator (Py.strip input_text) = true) as Hstrip.
  { unfold Py.strip. by apply all_chars_rstrip, all_chars_lstrip. }
  pose proof (split_go_separators separator false _ Hstrip) as Hpieces.
  induction Hpieces as [|x l -> _ IH]; [done|]. simpl. apply IH.
Qed.

(** ** Aggregator: the table *)

Section Table.
Context `{SortValuesLaws}.

Lemma sort_values_empty :
  sort_values (pd_DataFrame []) "Number of dependents"
  = inl (KeyError "Number of dependents").
Proof. reflexivity. Qed.

Lemma sort_values_nonempty (results : list ResultRow) :
  results ≠ [] →
  sort_values (pd_DataFrame results) "Number of dependents"
  = inr {| columns := COLUMNS; records := reorder results |}.
Proof. destruct results; [done|]. reflexivity. Qed.

Lemma aggregate_statistics_result (w : World) (input_text : string) :
  result (aggregate_statistics w input_text)
  = match emitted w input_text with
    | inl e => inl e
    | inr rows => sort_values (pd_DataFrame rows) "Number of dependents"
    end.
Proof.
  unfold aggregate_statistics, emitted. rewrite bind_exn_result.
  by destruct (result (loop w (tokenize input_text) (∅, []))).
Qed.

(** Without items the sort raises. *)
Lemma aggregate_statistics_no_items (w : World) (input_text : string) :
  tokenize input_text = [] →
  result (aggregate_statistics w input_text)
  = inl (KeyError "Number of dependents").
Proof.
  intros Htok. unfold aggregate_statistics. by rewrite Htok.
Qed.

(** Whenever the input has an item and the loop comes to its end, a
    table is returned, and its records are those the loop appended,
    reordered. *)
Lemma aggregate_statistics_returns (w : World) (input_text : string)
    (rows : list ResultRow) :
  tokenize input_text ≠ [] →
  emitted w input_text = inr rows →
  result (aggregate_statistics w input_text)
  = inr {| columns := COLUMNS; records := reorder rows |}.
Proof.
  intros Hne Hrows. rewrite aggregate_statistics_result, Hrows.
  apply sort_values_nonempty.
  unfold emitted in Hrows.
  destruct (tokenize input_text) as [|lib items]; [done|].
  destruct (result (loop w (lib :: items) (∅, []))) as [e|st] eqn:Hloop; [done|].
  injection Hrows as <-. by apply loop_emits_first in Hloop.
Qed.

Lemma aggregate_statistics_records (w : World) (input_text : string)
    (df : DataFrame) :
  result (aggregate_statistics w input_text) = inr df →
  ∃ rows, emitted w input_text = inr rows ∧ records df = reorder rows.
Proof.
  rewrite aggregate_statistics_result.
  destruct (emitted w input_text) as [e|rows]; [done|].
  unfold sort_values. destruct (bool_decide _); [|done].
  intros [= <-]. by exists rows.
Qed.

(** C1 (fails without items): the claim is that every input text gives
    a table and never an error.  With no item in the text (the empty
    text, or separators only) the frame is built from no record, has
    no column, and sorting it by the count column raises [KeyError]. *)
Theorem aggregate_statistics_raises_without_items (w : World) :
  result (aggregate_statistics w "") = inl (KeyError "Number of dependents")
  ∧ result (aggregate_statistics w " , ,,  ")
    = inl (KeyError "Number of dependents")
  ∧ result (aggregate_statistics w (String "010" (String "," (String "010" ""))))
    = inl (KeyError "Number of dependents").
Proof. repeat split; reflexivity. Qed.

(** C7: an item whose repository is not empty and already seen changes
    nothing: no record is appended and the earlier record keeps its
    name.  When the registry resolves [numpy] to [numpy/numpy], the
    text "numpy, https://github.com/numpy/numpy" gives a table of one
    record, named [numpy]. *)
Theorem duplicate_repository_is_dropped (w : World) :
  (∀ (added : gset string) (results : list ResultRow) (lib gh_repo : string),
     result (repo_of_item w lib) = inr gh_repo →
     gh_repo ≠ "" →
     gh_repo ∈ added →
     result (loop_body w (added, results) lib) = inr (added, results))
  ∧ (result (repo_of_item w "numpy") = inr "numpy/numpy" →
     ∃ df r,
       result (aggregate_statistics w "numpy, https://github.com/numpy/numpy")
       = inr df
       ∧ records df = [r] ∧ Name r = "numpy").
Proof.
  split.
  - intros added results lib gh_repo Hgh _ Hin.
    rewrite loop_body_result, Hgh. by rewrite bool_decide_eq_true_2.
  - intros Hnumpy.
    assert (emitted w "numpy, https://github.com/numpy/numpy"
            = inr [known_row w "numpy" "numpy/numpy"]) as Hrows.
    { unfold emitted.
      change (tokenize "numpy, https://github.com/numpy/numpy")
        with ["numpy"; "https://github.com/numpy/numpy"].
      rewrite loop_cons, loop_body_result, Hnumpy.
      rewrite bool_decide_eq_false_2 by set_solver.
      change (Py.truthy_str "numpy/numpy") with true. cbv iota.
      rewrite loop_cons, loop_body_result.
      change (result (repo_of_item w "https://github.com/numpy/numpy"))
        with (@inr exn string "numpy/numpy").
      cbv iota. by rewrite bool_decide_eq_true_2 by set_solver. }
    rewrite (aggregate_statistics_returns w _ _) by (done || by vm_compute).
    eexists _, (known_row w "numpy" "numpy/numpy").
    split; [done|]. split; [|done]. simpl.
    by apply Permutation_singleton_r, reorder_perm.
Qed.

(** C10: the seen set never holds the empty id, after any number of
    iterations, so an unresolved item is never taken for a duplicate:
    the records without a count are exactly the records
    [unknown_row lib] of the unresolved items [lib], one for each
    occurrence, both in the order of the loop and, up to the final
    reordering, in the table.  This is so whenever the loop comes to
    its end, which it does in every world with a secrets file. *)
Theorem unresolved_items_keep_their_rows (w : World) (input_text : string) :
  (∀ (n : nat) (st : gset string * list ResultRow),
     result (loop w (take n (tokenize input_text)) (∅, [])) = inr st →
     "" ∉ fst st)
  ∧ (∀ rows, emitted w input_text = inr rows →
       filter (has_count None) rows
       = (unknown_row <$> filter (unresolved w) (tokenize input_text)))
  ∧ (∀ df, result (aggregate_statistics w input_text) = inr df →
       filter (has_count None) (records df)
       ≡ₚ unknown_row <$> filter (unresolved w) (tokenize input_text))
  ∧ (secrets w ≠ None →
     (∀ n : nat, ∃ st,
        result (loop w (take n (tokenize input_text)) (∅, [])) = inr st)
     ∧ ∃ rows, emitted w input_text = inr rows).
Proof.
  assert (∀ rows, emitted w input_text = inr rows →
            filter (has_count None) rows
            = unknown_row <$> filter (unresolved w) (tokenize input_text))
    as Hrows.
  { intros rows. unfold emitted.
    destruct (result (loop w (tokenize input_text) (∅, []))) as [e|st] eqn:Hloop;
      [done|].
    intros [= <-].
    by destruct (loop_unknown_rows w _ ∅ [] st ltac:(set_solver) Hloop) as [_ ->]. }
  split; [|split; [|split]].
  - intros n st Hloop.
    by destruct (loop_unknown_rows w _ ∅ [] st ltac:(set_solver) Hloop).
  - apply Hrows.
  - intros df (rows & Hem & ->)%aggregate_statistics_records.
    rewrite reorder_perm. by rewrite (Hrows rows Hem).
  - intros Hfile. split.
    + intros n. apply loop_returns. by intros [? _].
    + unfold emitted.
      destruct (loop_returns w (tokenize input_text) (∅, [])) as [st ->];
        [by intros [? _]|]. by eexists.
Qed.

End Table.

(** ** Ranking *)

Lemma row_ge_count_ge (r1 r2 : ResultRow) :
  row_ge r1 r2 → count_ge (Number_of_dependents r1) (Number_of_dependents r2).
Proof. done. Qed.

(** Whatever reordering [sort_values] performs, the count column of its
    result is the sorted count column: the order [count_ge] leaves only
    the place of records with equal counts open. *)
Lemma reorder_counts `{SortValuesLaws} (l : list ResultRow) :
  Number_of_dependents <$> reorder l
  = merge_sort count_ge (Number_of_dependents <$> l).
Proof.
  apply (Sorted_unique count_ge).
  - apply (Sorted_fmap _ row_ge count_ge); [apply row_ge_count_ge|].
    apply reorder_sorted.
  - apply Sorted_merge_sort, _.
  - by rewrite reorder_perm, merge_sort_Permutation.
Qed.

(** C2 (as stated, fails on ties): the claim is that the table is sorted
    by count, larger first and unknown last, with equal counts in input
    order.  The text [tied_text] names 601 repositories; when no request
    succeeds each of them gets the count 0, the loop appends their
    records in input order, and the table that [sort_values] returns
    with the default [kind], quicksort, holds these records, is sorted,
    and does not have the records of count 0 in input order. *)
Lemma ties_do_not_keep_the_input_order :
  tokenize tied_text = tied_items
  ∧ emitted offline tied_text = inr tied_rows
  ∧ Forall exact_count tied_rows
  ∧ ∃ df,
      result (@aggregate_statistics numpy_quicksort offline tied_text) = inr df
      ∧ records df ≡ₚ tied_rows
      ∧ StronglySorted row_ge (records df)
      ∧ ¬ ties_in_input_order tied_rows (records df).
Proof.
  assert (tokenize tied_text = tied_items) as Htok by by vm_compute.
  assert (emitted offline tied_text = inr tied_rows) as Hrows.
  { unfold emitted. rewrite Htok.
    destruct (loop_direct_items offline tied_items ∅ []) as [added' ->];
      [| | |done].
    - apply (bool_decide_unpack _). by vm_compute.
    - apply NoDup_fmap_2, NoDup_seq.
      intros i j Heq. by apply (inj (String.app "x/r")), (inj pretty) in Heq.
    - apply Forall_forall. intros lib _. apply not_elem_of_empty. }
  split; [done|]. split; [done|]. split.
  { apply Forall_fmap, Forall_forall. intros item _ n [= <-]. by vm_compute. }
  exists {| columns := COLUMNS;
            records := reorder (SortValues := numpy_quicksort) tied_rows |}.
  split; [|split; [|split]].
  - apply aggregate_statistics_returns; [|done]. rewrite Htok. by vm_compute.
  - cbn [records reorder numpy_quicksort]. unfold take_rows.
    assert (nargsort (Number_of_dependents <$> tied_rows) ≡ₚ seq 0 601) as ->.
    { etrans; [symmetry; apply (merge_sort_Permutation (≤)%nat)|].
      assert (merge_sort (≤)%nat (nargsort (Number_of_dependents <$> tied_rows))
              = seq 0 601) as -> by by vm_compute.
      done. }
    by vm_compute.
  - apply (bool_decide_unpack _). by vm_compute.
  - intros Hties.
    refine (proj1 (bool_decide_eq_false _) _ (Hties 0)). by vm_compute.
Qed.

(** C2 (amended): the table holds the records of the loop, reordered so
    that every record stands before all records of a smaller count and
    before all records without a count; the count column is thereby
    fixed, and for the counts 5, 0, unknown, 12 it reads 12, 5, 0,
    unknown.  The order of records with equal counts is left to the
    sort.  This is said for counts up to 2^53, which the numeric column
    of the frame holds as they are. *)
Theorem aggregate_statistics_ranking `{SortValuesLaws} (w : World)
    (input_text : string) (rows : list ResultRow) (df : DataFrame) :
  emitted w input_text = inr rows →
  Forall exact_count rows →
  result (aggregate_statistics w input_text) = inr df →
  records df ≡ₚ rows
  ∧ StronglySorted row_ge (records df)
  ∧ Number_of_dependents <$> records df
    = merge_sort count_ge (Number_of_dependents <$> rows)
  ∧ (Number_of_dependents <$> rows = [Some 5; Some 0; None; Some 12] →
     Number_of_dependents <$> records df = [Some 12; Some 5; Some 0; None]).
Proof.
  intros Hrows _ (rows' & Hrows' & ->)%aggregate_statistics_records.
  assert (rows' = rows) as -> by congruence.
  split; [apply reorder_perm|].
  split; [apply Sorted_StronglySorted; [apply _|apply reorder_sorted]|].
  split; [apply reorder_counts|].
  intros Hcounts. by rewrite reorder_counts, Hcounts.
Qed.

Lemma aggregate_statistics_ranking_witness :
  ∃ df,
    result (@aggregate_statistics merge_reorder ranking_world
              "a/five b/zero nowhere d/twelve") = inr df
    ∧ Number_of_dependents <$> records df = [Some 12; Some 5; Some 0; None].
Proof.
  eexists. split; [reflexivity|].
  refine (proj2 (proj2 (proj2
            (@aggregate_statistics_ranking merge_reorder _ ranking_world
               "a/five b/zero nowhere d/twelve" _ _ eq_refl _ eq_refl)))
            eq_refl).
  repeat constructor; intros n [= <-]; by vm_compute.
Defined.

(** On the example of the four counts the quicksort of pandas gives the
    column that every sort with the documented properties gives. *)
Lemma numpy_quicksort_ranking_example :
  ∃ df,
    result (@aggregate_statistics numpy_quicksort ranking_world
              "a/five b/zero nowhere d/twelve") = inr df
    ∧ Name <$> records df = ["d/twelve"; "a/five"; "b/zero"; "nowhere"]
    ∧ Number_of_dependents <$> records df = [Some 12; Some 5; Some 0; None].
Proof. eexists. split; [vm_compute; reflexivity|]. split; reflexivity. Qed.

(** Two records of equal counts, as few records in all as these, keep
    their input order under the quicksort. *)
Lemma numpy_quicksort_two_ties :
  ∃ df,
    result (@aggregate_statistics numpy_quicksort
              (serving ["1,234 Repositories"]) "a/b c/d") = inr df
    ∧ Name <$> records df = ["a/b"; "c/d"].
Proof. eexists. split; [vm_compute; reflexivity|]. reflexivity. Qed.

(** ** Resolver: properties *)

Lemma scan_urls_skip (pre rest : list Py.value) :
  Forall skipped pre → scan_urls (pre ++ rest) = scan_urls rest.
Proof.
  induction 1 as [|url pre Hurl _ IH]; [done|]. simpl.
  destruct url; simpl in Hurl |- *; rewrite ?Hurl; try done.
  by destruct (Py.truthy_str s).
Qed.

Lemma scan_urls_hit (u : string) (post : list Py.value) :
  Py.contains "github.com" (Py.lower u) = true →
  parse_github_repo u ≠ "" →
  scan_urls (Py.VStr u :: post) = Some (Some (parse_github_repo u)).
Proof.
  intros Hmark Hparse. simpl. rewrite Hmark.
  apply truthy_str_true in Hparse. rewrite Hparse.
  destruct u; [done|]. done.
Qed.

Lemma prefix_lower (s1 s2 : string) :
  String.prefix s1 s2 = true → String.prefix (Py.lower s1) (Py.lower s2) = true.
Proof.
  revert s1. induction s2 as [|b s2 IH]; intros [|a s1]; simpl; try done.
  destruct (ascii_dec a b) as [->|]; [|done].
  intros Hp. destruct (ascii_dec _ _); [by apply IH|done].
Qed.

(** A string that contains the marker contains it in any casing. *)
Lemma contains_lower (u : string) :
  Py.contains "github.com" u = true →
  Py.contains "github.com" (Py.lower u) = true.
Proof.
  induction u as [|c u IH].
  { simpl. done. }
  cbn [Py.contains Py.lower].
  destruct (String.prefix "github.com" (String c u)) eqn:Hp.
  - apply prefix_lower in Hp.
    change (Py.lower "github.com") with "github.com" in Hp.
    cbn [Py.lower] in Hp. intros _. by rewrite Hp.
  - intros Hc. rewrite (IH Hc). by case_match.
Qed.

(** C4: the candidates are the home page followed by the values of the
    named-URL mapping in mapping order; when the candidates before [u] are
    passed over, [u] contains the marker in some casing and the parser
    accepts it, the lookup returns the parser's result on [u], whatever
    follows [u] in the list. *)
Theorem pypi_first_github_url_wins (w : World) (pkg_name : string)
    (resp : response) (top info named : list (string * Py.value))
    (home : Py.value) (pre post : list Py.value) (u : string) :
  requests_get w (pypi_url pkg_name) = Some resp →
  status_code resp = 200 →
  json resp = Some (Py.VDict top) →
  Py.assoc "info" top = Some (Py.VDict info) →
  Py.assoc "home_page" info = Some home →
  Py.assoc "project_urls" info = Some (Py.VDict named) →
  home :: map snd named = (pre ++ Py.VStr u :: post)%list →
  Forall skipped pre →
  Py.contains "github.com" (Py.lower u) = true →
  parse_github_repo u ≠ "" →
  urls_to_check (Py.VDict info) = Some (home :: map snd named)
  ∧ scan_urls (home :: map snd named) = Some (Some (parse_github_repo u))
  ∧ result (get_github_repo_from_pypi w pkg_name) = parse_github_repo u.
Proof.
  intros Hget Hstatus Hjson Hinfo Hhome Hnamed Hsplit Hpre Hmark Hparse.
  assert (urls_to_check (Py.VDict info) = Some (home :: map snd named)) as Hurls.
  { unfold urls_to_check. simpl. rewrite Hnamed, Hhome. simpl.
    unfold Py.or_. by destruct named. }
  assert (scan_urls (home :: map snd named)
          = Some (Some (parse_github_repo u))) as Hscan.
  { rewrite Hsplit, scan_urls_skip by done. by apply scan_urls_hit. }
  split; [done|]. split; [done|].
  unfold get_github_repo_from_pypi, request, bind, result; simpl.
  rewrite Hget; simpl. unfold pypi_body.
  rewrite Hstatus, Hjson; simpl. rewrite Hinfo; simpl.
  rewrite Hurls. cbn -[scan_urls]. by rewrite Hscan.
Qed.

Lemma pypi_first_github_url_wins_witness :
  result (get_github_repo_from_pypi registry_with_numpy "numpy") = "numpy/numpy".
Proof.
  refine (proj2 (proj2 (pypi_first_github_url_wins registry_with_numpy "numpy"
    {| status_code := 200; json := Some numpy_metadata; strings := [] |}
    [("info",
      Py.VDict
        [("home_page", Py.VStr "https://numpy.org");
         ("project_urls",
          Py.VDict
            [("Homepage", Py.VStr "https://numpy.org");
             ("Source", Py.VStr "https://github.com/numpy/numpy");
             ("Tracker", Py.VStr "https://github.com/numpy/numpy/issues")])])]
    [("home_page", Py.VStr "https://numpy.org");
     ("project_urls",
      Py.VDict
        [("Homepage", Py.VStr "https://numpy.org");
         ("Source", Py.VStr "https://github.com/numpy/numpy");
         ("Tracker", Py.VStr "https://github.com/numpy/numpy/issues")])]
    [("Homepage", Py.VStr "https://numpy.org");
     ("Source", Py.VStr "https://github.com/numpy/numpy");
     ("Tracker", Py.VStr "https://github.com/numpy/numpy/issues")]
    (Py.VStr "https://numpy.org")
    [Py.VStr "https://numpy.org"; Py.VStr "https://numpy.org"]
    [Py.VStr "https://github.com/numpy/numpy/issues"]
    "https://github.com/numpy/numpy"
    eq_refl eq_refl eq_refl eq_refl eq_refl eq_refl eq_refl _ eq_refl _)));
    [by repeat constructor | by vm_compute].
Defined.

Lemma pypi_requested (w : World) (pkg_name : string) :
  requested (get_github_repo_from_pypi w pkg_name) = [pypi_url pkg_name].
Proof. reflexivity. Qed.

Lemma librariesio_requested (w : World) (pkg_name : string) :
  requested (get_github_repo_from_librariesio w pkg_name)
  = match st_secrets_get w API_KEY with
    | inl _ => []
    | inr key => [librariesio_url_for key pkg_name]
    end.
Proof.
  unfold get_github_repo_from_librariesio, bind_exn, bind, requested.
  cbn [ret fst snd]. by destruct (st_secrets_get w API_KEY).
Qed.


(** What the resolver requests, by whether the fallback is entered *)
Lemma resolve_requested_cases (w : World) (pkg_name : string) :
  requested (resolve_github_repo_from_package w pkg_name) =
    if (negb (Py.truthy_str (result (get_github_repo_from_pypi w pkg_name)))
        && truthy_secret (secrets_get w API_KEY))%bool
    then [pypi_url pkg_name; librariesio_url w pkg_name]
    else [pypi_url pkg_name].
Proof.
  unfold resolve_github_repo_from_package. rewrite requested_bind, pypi_requested.
  destruct (negb _); [|done]. cbn [andb].
  unfold bind_exn. rewrite requested_bind. cbn [ret requested result fst snd].
  destruct (st_secrets_get_cases w API_KEY) as [[Hfile Hget]|[Hfile Hget]];
    rewrite Hget.
  - unfold secrets_get. by rewrite Hfile.
  - destruct (truthy_secret (secrets_get w API_KEY)); [|done].
    fold (requested (get_github_repo_from_librariesio w pkg_name)).
    by rewrite librariesio_requested, Hget.
Qed.

(** C8 (fails when the application has no secrets file): the claim is
    that the fallback is skipped when no credential is configured.  The
    resolver reads the credential from [st.secrets] outside any [try],
    and that read raises when there is no secrets file.  So for a
    package of which the registry knows nothing the resolver does not
    skip the fallback and return the empty result, as it does when the
    secrets file lacks the key: it raises, after the one request to the
    registry, and so does the aggregation of a text with such an
    item. *)
Theorem resolver_raises_without_secrets_file :
  secrets_get without_secrets_file API_KEY = None
  ∧ get_github_repo_from_pypi without_secrets_file "nowhere"
    = ("", [pypi_url "nowhere"])
  ∧ resolve_github_repo_from_package without_secrets_file "nowhere"
    = (inl StreamlitSecretNotFoundError, [pypi_url "nowhere"])
  ∧ resolve_github_repo_from_package offline "nowhere"
    = (inr "", [pypi_url "nowhere"])
  ∧ ∀ S : SortValues,
      result (@aggregate_statistics S without_secrets_file "nowhere a/b nowhere")
      = inl StreamlitSecretNotFoundError.
Proof. repeat split; reflexivity. Qed.

Lemma duplicate_repository_is_dropped_witness :
  result (loop_body registry_with_numpy ({["numpy/numpy"]}, [])
            "https://github.com/numpy/numpy")
  = inr ({["numpy/numpy"]}, [])
  ∧ ∃ df r,
      result (@aggregate_statistics merge_reorder registry_with_numpy
                "numpy, https://github.com/numpy/numpy") = inr df
      ∧ records df = [r] ∧ Name r = "numpy".
Proof.
  split.
  - apply (proj1 (@duplicate_repository_is_dropped merge_reorder _ registry_with_numpy)
             _ _ _ "numpy/numpy").
    + reflexivity.
    + discriminate.
    + apply elem_of_singleton. reflexivity.
  - apply (proj2 (@duplicate_repository_is_dropped merge_reorder _ registry_with_numpy)).
    reflexivity.
Defined.

Lemma unresolved_items_keep_their_rows_witness :
  ∃ df,
    result (@aggregate_statistics merge_reorder offline "nowhere a/b nowhere") = inr df
    ∧ filter (has_count None) (records df)
      ≡ₚ [unknown_row "nowhere"; unknown_row "nowhere"].
Proof.
  eexists. split; [reflexivity|].
  apply (proj1 (proj2 (proj2 (@unresolved_items_keep_their_rows merge_reorder _
                                offline "nowhere a/b nowhere")))).
  reflexivity.
Defined.

(** * Further properties *)

(** ** Identifier parser: the matcher on maximal runs *)

(** *** Completeness of the matcher on maximal runs *)

Lemma plus_bt_stops_ic {R : Type} (ic : bool) (p : ascii → bool) (rest : string)
    (k : string → option R) :
  stops (Re.cls_in ic p) rest → Re.plus_bt ic p rest k = None.
Proof. destruct rest as [|c rest]; simpl; [done|]. by intros ->. Qed.

Lemma plus_bt_maximal_ic {R : Type} (ic : bool) (p : ascii → bool)
    (pre rest : string) (k : string → option R) (x : R) :
  pre ≠ "" → all_chars (Re.cls_in ic p) pre = true →
  stops (Re.cls_in ic p) rest →
  k rest = Some x →
  Re.plus_bt ic p (pre ++ rest) k = Some x.
Proof.
  intros Hne Hall Hstop Hk.
  induction pre as [|c pre IH]; [done|].
  cbn [all_chars] in Hall. apply andb_true_iff in Hall as [Hc Hpre].
  rewrite append_cons. cbn [Re.plus_bt]. rewrite Hc.
  destruct pre as [|c' pre].
  - change ("" ++ rest) with rest. by rewrite plus_bt_stops_ic, Hk.
  - by rewrite IH.
Qed.

Lemma all_chars_app (p : ascii → bool) (a b : string) :
  all_chars p (a ++ b) = (all_chars p a && all_chars p b)%bool.
Proof.
  induction a as [|c a IH]; [done|].
  rewrite append_cons. cbn [all_chars]. by rewrite IH, andb_assoc.
Qed.

Lemma segments_single (s b : string) : segments s = [b] → s = b.
Proof.
  revert b. induction s as [|c s IH]; intros b; cbn [segments].
  { by intros [= <-]. }
  destruct (chr_is "/" c).
  - intros [= _ Hs]. by apply segments_nonempty in Hs.
  - destruct (segments s) as [|seg segs] eqn:Hs; [by apply segments_nonempty in Hs|].
    intros [= <- ->]. by rewrite (IH seg).
Qed.

Lemma segments_pair (s a b : string) :
  segments s = [a; b] → s = a ++ String "/" b.
Proof.
  revert a. induction s as [|c s IH]; intros a; cbn [segments]; [done|].
  destruct (chr_is "/" c) eqn:Hc.
  - intros [= <- Hs]. apply Ascii.eqb_eq in Hc as <-.
    by rewrite (segments_single s b).
  - destruct (segments s) as [|seg segs] eqn:Hs; [by apply segments_nonempty in Hs|].
    intros [= <- ->]. by rewrite (IH seg).
Qed.

Lemma segments_length_app (a b : string) :
  (List.length (segments (a ++ b)) + 1
   = List.length (segments a) + List.length (segments b))%nat.
Proof.
  induction a as [|c a IH].
  { change ("" ++ b) with b. simpl. lia. }
  rewrite append_cons. cbn [segments].
  destruct (chr_is "/" c).
  - simpl. lia.
  - destruct (segments (a ++ b)) eqn:H1; [by apply segments_nonempty in H1|].
    destruct (segments a) eqn:H2; [by apply segments_nonempty in H2|].
    simpl in *. lia.
Qed.

Lemma id_char_not_space (c : ascii) : id_char c = true → Py.isspace c = false.
Proof. by destruct c as [[] [] [] [] [] [] [] []]. Qed.

Lemma rstrip_not_space (s : string) :
  all_chars not_space s = true → Py.rstrip s = s.
Proof.
  induction s as [|c s IH]; [done|]. cbn [all_chars Py.rstrip].
  intros [Hc Hs]%andb_true_iff. rewrite (IH Hs).
  unfold not_space in Hc. destruct s; [|done].
  by destruct (Py.isspace c).
Qed.

Lemma lstrip_not_space (s : string) :
  all_chars not_space s = true → Py.lstrip s = s.
Proof.
  destruct s as [|c s]; [done|]. cbn [all_chars Py.lstrip].
  intros [Hc _]%andb_true_iff. unfold not_space in Hc.
  by destruct (Py.isspace c).
Qed.

Lemma strip_not_space (s : string) :
  all_chars not_space s = true → Py.strip s = s.
Proof.
  intros Hs. unfold Py.strip. by rewrite lstrip_not_space, rstrip_not_space.
Qed.

(** The whole of a match of the URL pattern *)
Lemma github_url_re_shape (t : string) (m : Re.match_obj) :
  Re.match_ false github_url_re t = Some m →
  ∃ owner repo rest,
    t = "github.com/" ++ owner ++ String "/" (repo ++ rest).
Proof.
  unfold Re.match_, github_url_re. cbn [Re.exec].
  intros (rest & -> & Hgrp)%exec_lit.
  cbn [Re.exec] in Hgrp.
  apply plus_bt_Some in Hgrp as (owner & rest1 & -> & _ & _ & Hk).
  destruct rest1 as [|c rest2]; [done|].
  unfold Re.chr_eq in Hk.
  destruct (Ascii.eqb "/" c) eqn:Hc; [|done].
  apply Ascii.eqb_eq in Hc as <-.
  apply plus_bt_Some in Hk as (repo & rest3 & -> & _ & _ & _).
  by exists owner, repo, rest3.
Qed.

(** A string in which the URL pattern is found has two ['/'] at least. *)
Lemma search_github_url_slashes (s : string) (m : Re.match_obj) :
  Re.search false github_url_re s = Some m →
  (3 ≤ List.length (segments s))%nat.
Proof.
  intros (sk & t & -> & Hm)%search_Some.
  apply github_url_re_shape in Hm as (owner & repo & rest & ->).
  pose proof (segments_length_app sk
                ("github.com/" ++ owner ++ String "/" (repo ++ rest))) as H1.
  pose proof (segments_length_app "github.com/"
                (owner ++ String "/" (repo ++ rest))) as H2.
  pose proof (segments_length_app owner (String "/" (repo ++ rest))) as H3.
  assert (List.length (segments (String "/" (repo ++ rest)))
          = S (List.length (segments (repo ++ rest)))) as H4 by done.
  assert (List.length (segments "github.com/") = 2%nat) as H5 by done.
  pose proof (segments_nonempty sk). pose proof (segments_nonempty owner).
  pose proof (segments_nonempty (repo ++ rest)).
  destruct (segments sk), (segments owner), (segments (repo ++ rest)); try done.
  simpl in *. lia.
Qed.

Lemma repository_id_shape (r : string) :
  repository_id r = true →
  ∃ owner repo,
    r = owner ++ String "/" repo
    ∧ owner ≠ "" ∧ repo ≠ ""
    ∧ all_chars id_char owner = true ∧ all_chars id_char repo = true.
Proof.
  unfold repository_id.
  destruct (segments r) as [|owner [|repo [|? ?]]] eqn:Hs; try done.
  unfold segment_ok.
  intros [[Ho1 Ho2]%andb_true_iff [Hr1 Hr2]%andb_true_iff]%andb_true_iff.
  exists owner, repo. split; [by apply segments_pair|].
  by destruct owner, repo.
Qed.

Lemma owner_repo_re_complete (owner repo : string) :
  owner ≠ "" → repo ≠ "" →
  all_chars id_char owner = true → all_chars id_char repo = true →
  is_match (Re.match_ false owner_repo_re (owner ++ String "/" repo)) = true.
Proof.
  intros Ho Hr Hoc Hrc.
  unfold Re.match_, owner_repo_re. cbn [Re.exec].
  erewrite (plus_bt_maximal_ic false); [done|done|done|done|].
  cbn [Re.chr_eq]. rewrite Ascii.eqb_refl.
  rewrite <-(append_empty_r repo) at 1.
  erewrite (plus_bt_maximal_ic false); [done|done|done|done|done].
Qed.

(** X2: a repository id (two non-empty segments of letters, digits,
    [_], [-], [.] joined by ['/']) is read back as itself. *)
Theorem parse_github_repo_fixes_ids (r : string) :
  repository_id r = true → parse_github_repo r = r.
Proof.
  intros Hid.
  destruct (repository_id_shape r Hid) as (owner & repo & -> & Ho & Hr & Hoc & Hrc).
  assert (Py.strip (owner ++ String "/" repo) = owner ++ String "/" repo) as Hstrip.
  { apply strip_not_space. rewrite all_chars_app. cbn [all_chars].
    rewrite !(all_chars_impl id_char not_space) by
      (done || (intros c Hc; unfold not_space; by rewrite id_char_not_space)).
    done. }
  unfold parse_github_repo.
  assert (url_form (owner ++ String "/" repo) = None) as ->.
  { unfold url_form. destruct (Py.contains _ _); [|done]. rewrite Hstrip.
    destruct (Re.search _ _ _) as [m|] eqn:Hs; [|done].
    apply search_github_url_slashes in Hs.
    unfold repository_id in Hid.
    destruct (segments (owner ++ String "/" repo)) as [|? [|? [|? ?]]];
      simpl in Hs; (done || lia). }
  rewrite Hstrip.
  pose proof (owner_repo_re_complete owner repo Ho Hr Hoc Hrc) as Hm.
  by destruct (Re.match_ _ _ _).
Qed.

Lemma all_chars_strip (p : ascii → bool) (s : string) :
  all_chars p s = true → all_chars p (Py.strip s) = true.
Proof. intros Hs. unfold Py.strip. by apply all_chars_rstrip, all_chars_lstrip. Qed.

(** X3: a text without ['/'] is never a repository: the parser returns
    the empty result, so a bare package name always goes to the
    resolver. *)
Theorem parse_github_repo_needs_slash (s : string) :
  all_chars not_slash s = true → parse_github_repo s = "".
Proof.
  intros Hs. apply all_chars_strip in Hs.
  pose proof (segments_no_slash _ Hs) as Hseg.
  unfold parse_github_repo, url_form.
  destruct (Re.search false github_url_re (Py.strip s)) as [m|] eqn:Hsearch.
  { apply search_github_url_slashes in Hsearch. rewrite Hseg in Hsearch.
    simpl in Hsearch. lia. }
  assert ((if Py.contains "github.com" s then None else None) = @None string)
    as -> by by destruct (Py.contains _ _).
  destruct (Re.match_ false owner_repo_re (Py.strip s)) as [m|] eqn:Hm; [|done].
  apply owner_repo_re_match in Hm as (owner & repo & tail & Ht & _).
  rewrite Ht, all_chars_app in Hs. cbn [all_chars] in Hs.
  apply andb_true_iff in Hs as [_ Hs]. done.
Qed.

Lemma repository_id_slashes (r : string) :
  repository_id r = true → List.length (segments r) = 2%nat.
Proof.
  unfold repository_id. by destruct (segments r) as [|? [|? [|? ?]]].
Qed.

Lemma parse_github_repo_slashes (s : string) :
  parse_github_repo s ≠ "" → List.length (segments (parse_github_repo s)) = 2%nat.
Proof.
  intros Hne. destruct (url_form s) as [r|] eqn:Hurl.
  - unfold parse_github_repo. rewrite Hurl. by eapply url_form_one_slash.
  - by apply repository_id_slashes, direct_form_repository_id.
Qed.

Lemma lstrip_rstrip (s : string) :
  Py.lstrip (Py.rstrip s) = Py.rstrip (Py.lstrip s).
Proof.
  induction s as [|c s IH]; [done|]. cbn [Py.lstrip Py.rstrip].
  destruct (Py.isspace c) eqn:Hc.
  - rewrite <-IH. destruct (Py.rstrip s) as [|y r]; [done|].
    cbn [Py.lstrip]. by rewrite Hc.
  - cbn [Py.rstrip]. rewrite Hc.
    destruct (Py.rstrip s) as [|y r]; cbn [Py.lstrip]; by rewrite Hc.
Qed.

Lemma lstrip_idem (s : string) : Py.lstrip (Py.lstrip s) = Py.lstrip s.
Proof.
  induction s as [|c s IH]; [done|]. cbn [Py.lstrip].
  destruct (Py.isspace c) eqn:Hc; [done|]. cbn [Py.lstrip]. by rewrite Hc.
Qed.

Lemma rstrip_idem (s : string) : Py.rstrip (Py.rstrip s) = Py.rstrip s.
Proof.
  induction s as [|c s IH]; [done|]. cbn [Py.rstrip].
  destruct (Py.rstrip s) as [|y r] eqn:Hr.
  - destruct (Py.isspace c) eqn:Hc; [done|]. cbn [Py.rstrip]. by rewrite Hc.
  - cbn [Py.rstrip] in *. rewrite IH. done.
Qed.

Lemma strip_idem (s : string) : Py.strip (Py.strip s) = Py.strip s.
Proof.
  unfold Py.strip. by rewrite lstrip_rstrip, lstrip_idem, rstrip_idem.
Qed.

Lemma prefix_empty (x : string) : String.prefix "" x = true.
Proof. by destruct x. Qed.

Lemma prefix_cons (a b : ascii) (n x : string) :
  String.prefix (String a n) (String b x)
  = if ascii_dec a b then String.prefix n x else false.
Proof. reflexivity. Qed.

Lemma prefix_rstrip (n x : string) :
  all_chars not_space n = true →
  String.prefix n (Py.rstrip x) = String.prefix n x.
Proof.
  revert x. induction n as [|a n IH]; intros x Hn.
  { by rewrite !prefix_empty. }
  cbn [all_chars] in Hn. apply andb_true_iff in Hn as [Ha Hn].
  destruct x as [|b x]; [done|]. cbn [Py.rstrip].
  destruct (ascii_dec a b) as [<-|Hab].
  - unfold not_space in Ha. apply negb_true_iff in Ha. rewrite Ha.
    assert (String.prefix (String a n) (String a (Py.rstrip x))
            = String.prefix (String a n) (String a x)) as Hgoal.
    { simpl. destruct (ascii_dec a a); [by apply IH|done]. }
    by destruct (Py.rstrip x).
  - assert (String.prefix (String a n) (String b x) = false) as ->.
    { simpl. by destruct (ascii_dec a b). }
    destruct (Py.rstrip x); [destruct (Py.isspace b)|]; simpl;
      try done; by destruct (ascii_dec a b).
Qed.

Lemma contains_nil (n : string) : Py.contains n "" = String.prefix n "".
Proof. cbn [Py.contains]. by destruct (String.prefix n ""). Qed.

Lemma contains_rstrip (n s : string) :
  all_chars not_space n = true →
  Py.contains n (Py.rstrip s) = Py.contains n s.
Proof.
  intros Hn. induction s as [|c s IH]; [done|].
  cbn [Py.contains]. rewrite <-(prefix_rstrip n (String c s) Hn), <-IH.
  cbn [Py.rstrip].
  destruct (Py.rstrip s) as [|y r] eqn:Hr.
  - destruct (Py.isspace c).
    + rewrite contains_nil. by destruct (String.prefix n "").
    + cbn [Py.contains]. done.
  - cbn [Py.contains]. done.
Qed.

Lemma contains_lstrip (s : string) :
  Py.contains "github.com" (Py.lstrip s) = Py.contains "github.com" s.
Proof.
  induction s as [|c s IH]; [done|]. cbn [Py.lstrip].
  destruct (Py.isspace c) eqn:Hc; [|done]. rewrite IH.
  cbn [Py.contains]. rewrite prefix_cons.
  destruct (ascii_dec "g" c) as [<-|]; [by vm_compute in Hc|done].
Qed.

Lemma contains_strip (s : string) :
  Py.contains "github.com" (Py.strip s) = Py.contains "github.com" s.
Proof.
  unfold Py.strip. by rewrite contains_rstrip, contains_lstrip.
Qed.

(** X4: white space around the text does not change what the parser
    returns. *)
Theorem parse_github_repo_ignores_outer_space (s : string) :
  parse_github_repo (Py.strip s) = parse_github_repo s.
Proof.
  unfold parse_github_repo, url_form. by rewrite contains_strip, strip_idem.
Qed.

Lemma scan_urls_pass (pre rest : list Py.value) :
  Forall passed_over pre → scan_urls (pre ++ rest) = scan_urls rest.
Proof.
  induction 1 as [|url pre Hurl _ IH]; [done|].
  destruct Hurl as [Hskip|(u & -> & Hparse)].
  - by rewrite <-IH, <-(scan_urls_skip [url] (pre ++ rest)) by by constructor.
  - rewrite <-IH. simpl. rewrite Hparse.
    destruct (Py.truthy_str u); [|done]. by destruct (Py.contains _ _).
Qed.

Lemma scan_urls_sound (urls : list Py.value) (r : string) :
  scan_urls urls = Some (Some r) →
  ∃ u, Py.VStr u ∈ urls
       ∧ Py.contains "github.com" (Py.lower u) = true
       ∧ r = parse_github_repo u ∧ r ≠ "".
Proof.
  induction urls as [|url urls IH]; [done|]. cbn [scan_urls].
  assert (scan_urls urls = Some (Some r) →
          ∃ u, Py.VStr u ∈ url :: urls
               ∧ Py.contains "github.com" (Py.lower u) = true
               ∧ r = parse_github_repo u ∧ r ≠ "") as Hrest.
  { intros (u & Hin & Hrest)%IH. exists u. split; [by right|done]. }
  destruct (Py.truthy url); [|done].
  destruct url as [| | | |u| |]; try done.
  destruct (Py.contains "github.com" (Py.lower u)) eqn:Hmark; [|done].
  destruct (Py.truthy_str (parse_github_repo u)) eqn:Hp; [|done].
  intros [= <-]. exists u. apply truthy_str_true in Hp.
  split; [by left|done].
Qed.

Lemma scan_urls_raises (pre post : list Py.value) (v : Py.value) :
  Forall passed_over pre → Py.truthy v = true → (∀ u, v ≠ Py.VStr u) →
  scan_urls (pre ++ v :: post) = None.
Proof.
  intros Hpre Hv Hstr. rewrite scan_urls_pass by done.
  cbn [scan_urls]. rewrite Hv. destruct v; try done. by destruct (Hstr s).
Qed.

Lemma pypi_result (w : World) (pkg_name : string) :
  result (get_github_repo_from_pypi w pkg_name)
  = try_except (requests_get w (pypi_url pkg_name) ≫= pypi_body) "".
Proof. reflexivity. Qed.

Lemma pypi_sound (w : World) (pkg_name : string) :
  result (get_github_repo_from_pypi w pkg_name) ≠ "" →
  ∃ resp data info urls u,
    requests_get w (pypi_url pkg_name) = Some resp
    ∧ status_code resp = 200
    ∧ json resp = Some data
    ∧ Py.get data "info" (Py.VDict []) = Some info
    ∧ urls_to_check info = Some urls
    ∧ Py.VStr u ∈ urls
    ∧ Py.contains "github.com" (Py.lower u) = true
    ∧ result (get_github_repo_from_pypi w pkg_name) = parse_github_repo u.
Proof.
  rewrite pypi_result.
  destruct (requests_get w (pypi_url pkg_name)) as [resp|] eqn:Hget; [|done].
  cbn [mbind option_bind]. unfold pypi_body.
  destruct (status_code resp =? 200) eqn:Hst; [|done].
  apply Z.eqb_eq in Hst.
  destruct (json resp) as [data|] eqn:Hjson; [|done]. cbn [mbind option_bind].
  destruct (Py.get data "info" (Py.VDict [])) as [info|] eqn:Hinfo; [|done].
  cbn [mbind option_bind].
  destruct (urls_to_check info) as [urls|] eqn:Hurls; [|done].
  cbn [mbind option_bind].
  destruct (scan_urls urls) as [[r|]|] eqn:Hscan; [|done..].
  cbn [mbind option_bind try_except]. intros _.
  apply scan_urls_sound in Hscan as (u & Hin & Hmark & -> & _).
  by exists resp, data, info, urls, u.
Qed.

Lemma librariesio_sound (w : World) (pkg_name repo_id : string) :
  result (get_github_repo_from_librariesio w pkg_name) = inr repo_id →
  repo_id ≠ "" →
  ∃ resp data u,
    requests_get w (librariesio_url w pkg_name) = Some resp
    ∧ status_code resp = 200
    ∧ json resp = Some data
    ∧ Py.get data "repository_url" (Py.VStr "") = Some (Py.VStr u)
    ∧ Py.contains "github.com" (Py.lower u) = true
    ∧ repo_id = parse_github_repo u.
Proof.
  rewrite librariesio_result.
  destruct (st_secrets_get_cases w API_KEY) as [[_ ->]|[_ ->]]; [done|].
  fold (librariesio_url w pkg_name). intros [= <-].
  destruct (requests_get w (librariesio_url w pkg_name)) as [resp|] eqn:Hget; [|done].
  cbn [mbind option_bind]. unfold librariesio_body.
  destruct (status_code resp =? 200) eqn:Hst; [|done].
  apply Z.eqb_eq in Hst.
  destruct (json resp) as [data|] eqn:Hjson; [|done]. cbn [mbind option_bind].
  destruct (Py.get data "repository_url" (Py.VStr "")) as [url|] eqn:Hurl; [|done].
  cbn [mbind option_bind].
  destruct (Py.truthy url); [|done].
  destruct url as [| | | |u| |]; try done.
  destruct (Py.contains "github.com" (Py.lower u)) eqn:Hmark; [|done].
  destruct (Py.truthy_str (parse_github_repo u)) eqn:Hp; [|done].
  cbn [try_except]. intros _. by exists resp, data, u.
Qed.

Lemma resolve_sound (w : World) (pkg_name repo_id : string) :
  result (resolve_github_repo_from_package w pkg_name) = inr repo_id →
  repo_id ≠ "" →
  ∃ u, Py.contains "github.com" (Py.lower u) = true
       ∧ repo_id = parse_github_repo u.
Proof.
  rewrite resolve_result.
  assert (result (get_github_repo_from_pypi w pkg_name) = repo_id →
          repo_id ≠ "" →
          ∃ u, Py.contains "github.com" (Py.lower u) = true
               ∧ repo_id = parse_github_repo u) as Hpypi.
  { intros <- (resp & data & info & urls & u & _ & _ & _ & _ & _ & _ & Hmark & Hu)%pypi_sound.
    by exists u. }
  destruct (negb _); [|intros [= ?]; by apply Hpypi].
  destruct (st_secrets_get w API_KEY) as [e|key]; [done|].
  destruct (truthy_secret key); [|intros [= ?]; by apply Hpypi].
  intros Hlib Hne.
  destruct (librariesio_sound _ _ _ Hlib Hne)
    as (resp & data & u & _ & _ & _ & _ & Hmark & ->).
  by exists u.
Qed.

(** *** Counts *)

Lemma int_digits_nonneg (s : string) (acc n : Z) :
  0 ≤ acc → Py.int_digits acc s = Some n → 0 ≤ n.
Proof.
  revert acc. induction s as [|c s IH]; intros acc Hacc; cbn [Py.int_digits].
  { by intros [= <-]. }
  destruct (Py.isdigit c); [|done]. apply IH. lia.
Qed.

Lemma int_nonneg (s : string) (n : Z) : Py.int s = Some n → 0 ≤ n.
Proof.
  unfold Py.int. destruct s; [done|].
  destruct (_ <? _)%N; [done|]. by apply int_digits_nonneg.
Qed.

Lemma deps_body_nonneg (r : response) (n : Z) : deps_body r = Some n → 0 ≤ n.
Proof.
  unfold deps_body. destruct (negb _); [by intros [= <-]|].
  destruct (soup_find _ _) as [node|]; [|by intros [= <-]].
  destruct (Py.truthy_str node); [|by intros [= <-]].
  destruct (Re.search _ _ _) as [m|]; [|by intros [= <-]].
  destruct (Py.int _) as [k|] eqn:Hk; [|done].
  cbn [mbind option_bind]. intros [= <-]. apply int_nonneg in Hk. lia.
Qed.

Lemma get_repo_deps_nonneg (w : World) (github_id : string) :
  0 ≤ result (get_repo_deps_via_github w github_id).
Proof.
  change (result (get_repo_deps_via_github w github_id))
    with (try_except (requests_get w (dependents_url github_id) ≫= deps_body) 0).
  destruct (requests_get w (dependents_url github_id)) as [r|]; [|done].
  cbn [mbind option_bind].
  destruct (deps_body r) as [n|] eqn:Hn; [|done]. by apply deps_body_nonneg in Hn.
Qed.

(** *** Completeness of the matcher, with or without [re.IGNORECASE] *)

Lemma exec_lit_complete {R : Type} (l rest : string) (cap : option string)
    (k : string → option string → option R) :
  Re.exec false (Re.lit l) (l ++ rest) cap k = k rest cap.
Proof.
  induction l as [|c l IH]; [done|].
  rewrite append_cons. cbn [Re.lit Re.exec Re.chr_eq].
  by rewrite Ascii.eqb_refl.
Qed.

Lemma search_complete (ic : bool) (r : Re.regex) (sk t : string) :
  is_match (Re.match_ ic r t) = true →
  is_match (Re.search ic r (sk ++ t)) = true.
Proof.
  intros Hm. induction sk as [|c sk IH].
  - change ("" ++ t) with t. destruct t; cbn [Re.search]; by destruct (Re.match_ _ _ _).
  - rewrite append_cons. cbn [Re.search].
    by destruct (Re.match_ ic r (String c (sk ++ t))).
Qed.

Lemma digit_or_comma_ic (c : ascii) :
  Re.cls_in true digit_or_comma c = digit_or_comma c.
Proof. by destruct c as [[] [] [] [] [] [] [] []]. Qed.

Lemma isspace_not_digit_or_comma (c : ascii) :
  Py.isspace c = true → digit_or_comma c = false.
Proof. by destruct c as [[] [] [] [] [] [] [] []]. Qed.

(** A node that holds the phrase is found by the phrase pattern. *)
Lemma repositories_re_complete (pre num sp post : string) :
  num ≠ "" → all_chars digit_or_comma num = true →
  sp ≠ "" → all_chars Py.isspace sp = true →
  is_match (Re.search false repositories_re
              (pre ++ num ++ sp ++ "Repositories" ++ post)) = true.
Proof.
  intros Hnum Hnumc Hsp Hspc. apply search_complete.
  unfold Re.match_, repositories_re. cbn [Re.exec].
  erewrite (plus_bt_maximal_ic false); [done|done|done| |].
  - destruct sp as [|c sp]; [done|]. rewrite append_cons. cbn [stops Re.cls_in].
    cbn [all_chars] in Hspc. apply andb_true_iff in Hspc as [Hc _].
    by apply isspace_not_digit_or_comma.
  - erewrite (plus_bt_maximal_ic false); [done|done|done|done|].
    by rewrite exec_lit_complete.
Qed.

(** The second search reads the first run of digits and commas. *)
Lemma count_re_first_run (pre num rest : string) :
  all_chars no_digit_or_comma pre = true →
  num ≠ "" → all_chars digit_or_comma num = true →
  stops digit_or_comma rest →
  Re.search true count_re (pre ++ num ++ rest)
  = Some {| Re.group0 := num; Re.group1 := Some num |}.
Proof.
  intros Hpre Hnum Hnumc Hstop.
  assert (Re.match_ true count_re (num ++ rest)
          = Some {| Re.group0 := Re.consumed (num ++ rest) rest;
                    Re.group1 := Some (Re.consumed (num ++ rest) rest) |}) as Hm.
  { unfold Re.match_, count_re. cbn [Re.exec].
    erewrite (plus_bt_maximal_ic true); [done|done| | |done].
    - erewrite all_chars_impl; [done| |done].
      intros c Hc. by rewrite digit_or_comma_ic.
    - destruct rest as [|c rest]; [done|]. cbn [stops] in *.
      by rewrite digit_or_comma_ic. }
  rewrite !consumed_app in Hm.
  induction pre as [|c pre IH].
  - change ("" ++ num ++ rest) with (num ++ rest).
    destruct (num ++ rest); cbn [Re.search]; by rewrite Hm.
  - cbn [all_chars] in Hpre. apply andb_true_iff in Hpre as [Hc Hpre].
    rewrite append_cons. cbn [Re.search].
    assert (Re.match_ true count_re (String c (pre ++ num ++ rest)) = None) as ->.
    { unfold Re.match_, count_re. cbn [Re.exec Re.plus_bt].
      rewrite digit_or_comma_ic. unfold no_digit_or_comma in Hc.
      by destruct (digit_or_comma c). }
    by apply IH.
Qed.

Lemma find_first {A : Type} (f : A → bool) (before after : list A) (x : A) :
  Forall (λ y, f y = false) before → f x = true →
  List.find f (before ++ x :: after) = Some x.
Proof.
  induction 1 as [|y before Hy _ IH]; intros Hx; simpl.
  - by rewrite Hx.
  - rewrite Hy. by apply IH.
Qed.

(** On a page whose first node with the phrase has nothing digit-like
    before the phrase, the count is the phrase's number. *)
Lemma deps_body_phrase (r : response) (before after : list string)
    (pre num sp post : string) :
  status_code r = 200 →
  strings r
  = (before ++ (pre ++ num ++ sp ++ "Repositories" ++ post)%string :: after)%list →
  Forall (λ node, is_match (Re.search false repositories_re node) = false) before →
  all_chars no_digit_or_comma pre = true →
  num ≠ "" → all_chars digit_or_comma num = true →
  sp ≠ "" → all_chars Py.isspace sp = true →
  deps_body r = Py.int (Py.remove_char "," num).
Proof.
  intros Hst Hnodes Hbefore Hpre Hnum Hnumc Hsp Hspc.
  unfold deps_body, soup_find. rewrite Hst, Hnodes.
  change (negb (200 =? 200)) with false. cbv iota.
  rewrite (find_first _ before after) by
    (done || by apply repositories_re_complete).
  assert (Py.truthy_str (pre ++ num ++ sp ++ "Repositories" ++ post) = true) as ->.
  { apply truthy_str_true. destruct pre; [|done].
    change ("" ++ num ++ sp ++ "Repositories" ++ post)
      with (num ++ sp ++ "Repositories" ++ post).
    by destruct num. }
  rewrite count_re_first_run; [|done|done|done|].
  - unfold group_1. cbn [Re.group1]. by destruct (Py.int _).
  - destruct sp as [|c sp]; [done|]. rewrite append_cons. cbn [stops].
    cbn [all_chars] in Hspc. apply andb_true_iff in Hspc as [Hc _].
    by apply isspace_not_digit_or_comma.
Qed.

Lemma all_chars_rev_app (p : ascii → bool) (a b : string) :
  all_chars p (String.rev_app a b) = (all_chars p a && all_chars p b)%bool.
Proof.
  revert b. induction a as [|c a IH]; intros b; [done|].
  cbn [String.rev_app all_chars]. rewrite IH. cbn [all_chars].
  by destruct (p c), (all_chars p a), (all_chars p b).
Qed.

Lemma rev_app_rev_app (a b c : string) :
  String.rev_app (String.rev_app a b) c = String.rev_app b (a ++ c).
Proof.
  revert b. induction a as [|x a IH]; intros b; [done|].
  cbn [String.rev_app]. by rewrite IH, append_cons.
Qed.

Lemma split_go_clean (cur : string) (run : bool) (s : string) :
  all_chars not_separator cur = true →
  Forall (λ x, all_chars not_separator x = true) (Re.split_go separator cur run s).
Proof.
  revert cur run. induction s as [|c s IH]; intros cur run Hcur; cbn [Re.split_go].
  - constructor; [|done]. unfold String.rev. by rewrite all_chars_rev_app, Hcur.
  - destruct (separator c) eqn:Hc.
    + destruct run; [by apply IH|].
      constructor; [|by apply IH].
      unfold String.rev. by rewrite all_chars_rev_app, Hcur.
    + apply IH. cbn [all_chars]. unfold not_separator at 1. by rewrite Hc, Hcur.
Qed.

Lemma not_separator_not_space (c : ascii) :
  not_separator c = true → not_space c = true.
Proof. by destruct c as [[] [] [] [] [] [] [] []]. Qed.

Lemma strip_clean (x : string) :
  all_chars not_separator x = true → Py.strip x = x.
Proof.
  intros Hx. apply strip_not_space.
  eapply all_chars_impl; [apply not_separator_not_space|done].
Qed.

Lemma tokenize_pieces_strip (input_text : string) :
  tokenize input_text = pieces "" false (Py.strip input_text).
Proof.
  unfold tokenize, pieces, Re.split_plus.
  pose proof (split_go_clean "" false (Py.strip input_text) eq_refl) as Hclean.
  induction Hclean as [|x l Hx _ IH]; [done|]. cbn [List.filter].
  rewrite (strip_clean x Hx).
  destruct (Py.truthy_str x); [|done]. cbn [map]. by rewrite IH, strip_clean.
Qed.

Lemma pieces_run (s : string) : pieces "" true s = pieces "" false s.
Proof. destruct s as [|c s]; [done|]. unfold pieces. cbn [Re.split_go]. by destruct (separator c). Qed.

Lemma isspace_separator (c : ascii) : Py.isspace c = true → separator c = true.
Proof. by destruct c as [[] [] [] [] [] [] [] []]. Qed.

Lemma pieces_lstrip (s : string) : pieces "" false (Py.lstrip s) = pieces "" false s.
Proof.
  induction s as [|c s IH]; [done|]. cbn [Py.lstrip].
  destruct (Py.isspace c) eqn:Hc; [|done].
  rewrite IH. unfold pieces at 2. cbn [Re.split_go].
  rewrite (isspace_separator c Hc). cbn [List.filter Py.truthy_str String.rev String.rev_app].
  by rewrite <-pieces_run.
Qed.

Lemma pieces_rstrip (s : string) :
  ∀ cur run, pieces cur run (Py.rstrip s) = pieces cur run s.
Proof.
  induction s as [|c s IH]; intros cur run; [done|]. cbn [Py.rstrip].
  assert (pieces cur run (String c (Py.rstrip s)) = pieces cur run (String c s)) as Hcons.
  { unfold pieces. cbn [Re.split_go].
    destruct (separator c); [destruct run|]; cbn [List.filter];
      fold (pieces cur true (Py.rstrip s)); fold (pieces cur true s);
      fold (pieces "" true (Py.rstrip s)); fold (pieces "" true s);
      fold (pieces (String c cur) false (Py.rstrip s));
      fold (pieces (String c cur) false s); by rewrite IH. }
  destruct (Py.rstrip s) as [|y r] eqn:Hr; [|done].
  destruct (Py.isspace c) eqn:Hc; [|done].
  rewrite <-Hcons. unfold pieces. cbn [Re.split_go].
  rewrite (isspace_separator c Hc). by destruct run.
Qed.

Lemma tokenize_pieces (input_text : string) :
  tokenize input_text = pieces "" false input_text.
Proof.
  rewrite tokenize_pieces_strip. unfold Py.strip.
  by rewrite pieces_rstrip, pieces_lstrip.
Qed.

Lemma pieces_app (a b : string) (c : ascii) :
  separator c = true →
  ∀ cur run, (run = true → cur = "") →
    pieces cur run (a ++ String c b)
    = (pieces cur run a ++ pieces "" false b)%list.
Proof.
  intros Hc. induction a as [|x a IH]; intros cur run Hinv.
  - change ("" ++ String c b) with (String c b).
    unfold pieces at 1 2. cbn [Re.split_go]. rewrite Hc.
    destruct run.
    + rewrite (Hinv eq_refl). cbn [List.filter]. apply pieces_run.
    + cbn [List.filter]. fold (pieces "" true b). rewrite pieces_run.
      by destruct (Py.truthy_str _).
  - rewrite append_cons. unfold pieces at 1 2. cbn [Re.split_go].
    destruct (separator x).
    + destruct run.
      * by apply IH.
      * cbn [List.filter]. fold (pieces "" true (a ++ String c b)).
        fold (pieces "" true a). rewrite IH by done.
        by destruct (Py.truthy_str _).
    + by apply IH.
Qed.

Lemma split_go_item (t : string) (cur : string) :
  all_chars not_separator t = true →
  Re.split_go separator cur false t = [String.rev (String.rev_app t cur)].
Proof.
  revert cur. induction t as [|c t IH]; intros cur Ht; [done|].
  cbn [all_chars] in Ht. apply andb_true_iff in Ht as [Hc Ht].
  cbn [Re.split_go]. unfold not_separator in Hc.
  destruct (separator c); [done|]. by rewrite IH.
Qed.

(** A text without separators is one item. *)
Lemma tokenize_item (t : string) :
  t ≠ "" → all_chars not_separator t = true → tokenize t = [t].
Proof.
  intros Hne Ht. rewrite tokenize_pieces. unfold pieces.
  rewrite split_go_item by done. unfold String.rev.
  rewrite rev_app_rev_app. cbn [String.rev_app]. rewrite append_empty_r.
  cbn [List.filter]. by destruct t.
Qed.

(** Two texts joined by a separator give the items of the first followed
    by the items of the second. *)
Lemma tokenize_app (a b : string) (c : ascii) :
  separator c = true →
  tokenize (a ++ String c b) = (tokenize a ++ tokenize b)%list.
Proof.
  intros Hc. rewrite !tokenize_pieces. by apply pieces_app.
Qed.

(** X17: no item is empty and no item holds a comma or white space. *)
Theorem tokenize_items_are_clean (input_text : string) :
  Forall (λ item, item ≠ "" ∧ all_chars not_separator item = true)
    (tokenize input_text).
Proof.
  rewrite tokenize_pieces. unfold pieces.
  pose proof (split_go_clean "" false input_text eq_refl) as Hclean.
  induction Hclean as [|x l Hx _ IH]; [done|]. cbn [List.filter].
  destruct (Py.truthy_str x) eqn:Hne; [|done].
  constructor; [|done]. split; [by apply truthy_str_true|done].
Qed.

Lemma repo_of_item_slashes (w : World) (lib gh_repo : string) :
  result (repo_of_item w lib) = inr gh_repo →
  gh_repo ≠ "" →
  List.length (segments gh_repo) = 2%nat.
Proof.
  rewrite repo_of_item_result. destruct (negb _).
  - intros Hres Hne. destruct (resolve_sound _ _ _ Hres Hne) as (u & _ & Hu).
    rewrite Hu in Hne |- *. by apply parse_github_repo_slashes.
  - intros [= <-]. apply parse_github_repo_slashes.
Qed.

(** A property of the loop state that every iteration keeps holds at the
    end of the loop. *)
Lemma loop_invariant (P : gset string * list ResultRow → Prop) (w : World) :
  (∀ st lib st', P st → result (loop_body w st lib) = inr st' → P st') →
  ∀ items st st', P st → result (loop w items st) = inr st' → P st'.
Proof.
  intros Hstep. induction items as [|lib items IH]; intros st st' Hst.
  { by intros [= <-]. }
  rewrite loop_cons.
  destruct (result (loop_body w st lib)) as [e|st1] eqn:Hbody; [done|].
  apply IH. by eapply Hstep.
Qed.

Lemma known_row_shape (w : World) (lib gh : string) :
  List.length (segments gh) = 2%nat → row_shape (known_row w lib gh).
Proof.
  intros Hgh. right. exists gh, (result (get_repo_deps_via_github w gh)).
  split; [done|]. split; [apply get_repo_deps_nonneg|].
  split; [done|]. split; [done|]. cbn [Dependents_Page known_row].
  unfold dependents_url. by rewrite app_string_assoc.
Qed.

Lemma loop_row_shape (w : World) (items : list string)
    (st st' : gset string * list ResultRow) :
  Forall row_shape st.2 → result (loop w items st) = inr st' →
  Forall row_shape st'.2.
Proof.
  apply (loop_invariant (λ st, Forall row_shape st.2)).
  clear st st'. intros [added results] lib st' Hst. rewrite loop_body_result.
  destruct (result (repo_of_item w lib)) as [e|gh] eqn:Hgh; [done|].
  intros [= <-].
  destruct (bool_decide _); [done|].
  destruct (Py.truthy_str gh) eqn:Ht; cbn [snd] in *.
  - apply Forall_app. split; [done|]. constructor; [|done].
    apply known_row_shape, (repo_of_item_slashes w lib); [done|].
    by apply truthy_str_true.
  - apply Forall_app. split; [done|]. constructor; [|done]. by left.
Qed.

Lemma loop_seen_inv (w : World) (items : list string)
    (st st' : gset string * list ResultRow) :
  seen_inv st → result (loop w items st) = inr st' → seen_inv st'.
Proof.
  apply (loop_invariant seen_inv).
  clear st st'. intros [added results] lib st' [Hseen Hdup].
  rewrite loop_body_result.
  destruct (result (repo_of_item w lib)) as [e|gh]; [done|].
  intros [= <-].
  destruct (bool_decide_reflect (gh ∈ added)) as [Hin|Hin]; [done|].
  destruct (Py.truthy_str gh) eqn:Hgh; split; cbn [fst snd] in *.
  - intros r link [Hr|Hr]%elem_of_app Hlink.
    + destruct (Hseen r link Hr Hlink) as (gh' & Hgh' & ->).
      exists gh'. split; [set_solver|done].
    + apply list_elem_of_singleton in Hr as ->. injection Hlink as <-.
      exists gh. split; [set_solver|done].
  - rewrite omap_app. apply NoDup_app. split; [done|]. split; [|apply NoDup_singleton].
    intros link (r & Hr & Hlink)%list_elem_of_omap Hnew.
    cbn in Hnew. apply list_elem_of_singleton in Hnew.
    destruct (Hseen r link Hr Hlink) as (gh' & Hgh' & Heq).
    rewrite Heq in Hnew. apply (inj (String.app "https://github.com/")) in Hnew.
    by subst gh'.
  - intros r link [Hr|Hr]%elem_of_app Hlink.
    + by apply (Hseen r).
    + apply list_elem_of_singleton in Hr as ->. done.
  - rewrite omap_app. cbn. by rewrite app_nil_r.
Qed.

(** The records are named after items, in the order of the items, each
    item naming one record at most. *)
Lemma loop_names (w : World) (items : list string) :
  ∀ (added : gset string) (results : list ResultRow)
    (st' : gset string * list ResultRow),
    result (loop w items (added, results)) = inr st' →
    ∃ names,
      names `sublist_of` items
      ∧ Name <$> snd st' = ((Name <$> results) ++ names)%list.
Proof.
  induction items as [|lib items IH]; intros added results st'.
  { intros [= <-]. exists []. split; [done|]. cbn. by rewrite app_nil_r. }
  rewrite loop_cons, loop_body_result.
  destruct (result (repo_of_item w lib)) as [e|gh]; [done|].
  destruct (bool_decide _).
  - intros (names & Hsub & ->)%IH.
    exists names. split; [by constructor|done].
  - destruct (Py.truthy_str _); intros (names & Hsub & ->)%IH;
      exists (lib :: names); (split; [by constructor|]);
      by rewrite fmap_app, <-app_assoc.
Qed.

Lemma requested_bind_exn {A B : Type} (m : M (exn + A)) (f : A → M (exn + B)) :
  requested (bind_exn m f)
  = (requested m ++ match result m with
                    | inl _ => []
                    | inr a => requested (f a)
                    end)%list.
Proof. destruct m as [[e|a] l]; reflexivity. Qed.

Lemma resolve_requested (w : World) (pkg_name : string) :
  Forall (request_target w)
    (requested (resolve_github_repo_from_package w pkg_name)).
Proof.
  rewrite resolve_requested_cases.
  destruct (negb _); [destruct (truthy_secret _) eqn:Hkey|]; cbn.
  - constructor; [left; eauto|]. constructor; [|done]. right; right. eauto.
  - constructor; [left; eauto|done].
  - constructor; [left; eauto|done].
Qed.

Lemma loop_body_requested (w : World) (st : gset string * list ResultRow)
    (lib : string) :
  Forall (request_target w) (requested (loop_body w st lib)).
Proof.
  destruct st as [added results]. unfold loop_body.
  rewrite requested_bind_exn. apply Forall_app. split.
  - unfold repo_of_item. destruct (negb _); [apply resolve_requested|by constructor].
  - destruct (result (repo_of_item w lib)) as [e|gh]; [by constructor|].
    destruct (bool_decide _); [by constructor|].
    destruct (Py.truthy_str _); [|by constructor].
    constructor; [|by constructor]. right; left. eauto.
Qed.

Lemma loop_requested (w : World) (items : list string) :
  ∀ st, Forall (request_target w) (requested (loop w items st)).
Proof.
  induction items as [|lib items IH]; intros st; [by constructor|].
  cbn [loop]. rewrite requested_bind_exn. apply Forall_app.
  split; [apply loop_body_requested|].
  destruct (result (loop_body w st lib)); [by constructor|apply IH].
Qed.

(** ** Identifier parser: further properties *)

(** X1: a non-empty result of the parser has exactly one ['/'], and no
    white space at either end. *)
Theorem parse_github_repo_one_slash (s : string) :
  parse_github_repo s ≠ "" →
  List.length (segments (parse_github_repo s)) = 2%nat
  ∧ Py.strip (parse_github_repo s) = parse_github_repo s.
Proof.
  intros Hne. split; [by apply parse_github_repo_slashes|].
  unfold parse_github_repo, url_form.
  destruct (Py.contains _ _); [destruct (Re.search _ _ _)|];
    try apply strip_idem; by destruct (Re.match_ _ _ _); [apply strip_idem|].
Qed.

Lemma parse_github_repo_one_slash_witness :
  List.length (segments (parse_github_repo "https://github.com/numpy/numpy#readme"))
  = 2%nat.
Proof.
  apply (parse_github_repo_one_slash "https://github.com/numpy/numpy#readme").
  vm_compute. discriminate.
Defined.

Lemma parse_github_repo_fixes_ids_witness :
  parse_github_repo "pandas-dev/pandas" = "pandas-dev/pandas".
Proof. apply parse_github_repo_fixes_ids. reflexivity. Defined.

Lemma parse_github_repo_needs_slash_witness :
  parse_github_repo "github.com" = "".
Proof. apply parse_github_repo_needs_slash. reflexivity. Defined.

(** X5: for a text without the domain marker, a non-empty result is the
    stripped text itself, and it is a repository id. *)
Theorem parse_github_repo_direct_form (s : string) :
  Py.contains "github.com" s = false →
  parse_github_repo s ≠ "" →
  parse_github_repo s = Py.strip s
  ∧ repository_id (parse_github_repo s) = true.
Proof.
  intros Hmark Hne.
  assert (url_form s = None) as Hurl by (unfold url_form; by rewrite Hmark).
  split; [|by apply direct_form_repository_id].
  unfold parse_github_repo in *. rewrite Hurl in *.
  by destruct (Re.match_ _ _ _).
Qed.

Lemma parse_github_repo_direct_form_witness :
  parse_github_repo "  pandas-dev/pandas " = "pandas-dev/pandas"
  ∧ repository_id (parse_github_repo "  pandas-dev/pandas ") = true.
Proof.
  apply (parse_github_repo_direct_form "  pandas-dev/pandas ");
    [reflexivity | vm_compute; discriminate].
Defined.

(** ** Resolver: further properties *)

(** X6: whatever the registry lookup returns, other than the empty
    result, is the parser's result on one of the candidate URLs of a
    status-200 JSON response, and that URL contains the marker in some
    casing. *)
Theorem pypi_result_is_a_parsed_candidate (w : World) (pkg_name : string) :
  result (get_github_repo_from_pypi w pkg_name) ≠ "" →
  ∃ resp data info urls u,
    requests_get w (pypi_url pkg_name) = Some resp
    ∧ status_code resp = 200
    ∧ json resp = Some data
    ∧ Py.get data "info" (Py.VDict []) = Some info
    ∧ urls_to_check info = Some urls
    ∧ Py.VStr u ∈ urls
    ∧ Py.contains "github.com" (Py.lower u) = true
    ∧ result (get_github_repo_from_pypi w pkg_name) = parse_github_repo u.
Proof. apply pypi_sound. Qed.

Lemma pypi_result_is_a_parsed_candidate_witness :
  ∃ u, Py.contains "github.com" (Py.lower u) = true
       ∧ result (get_github_repo_from_pypi registry_with_numpy "numpy")
         = parse_github_repo u.
Proof.
  destruct (pypi_result_is_a_parsed_candidate registry_with_numpy "numpy")
    as (resp & data & info & urls & u & _ & _ & _ & _ & _ & _ & Hmark & Hu).
  - vm_compute. discriminate.
  - by exists u.
Defined.

(** X7: the scan goes past every candidate it skips and every candidate
    that has the marker but that the parser rejects; the first candidate
    with the marker that the parser accepts gives the result, whatever
    follows it. *)
Theorem pypi_first_parsable_candidate_wins (w : World) (pkg_name : string)
    (resp : response) (data info : Py.value) (pre post : list Py.value)
    (u : string) :
  requests_get w (pypi_url pkg_name) = Some resp →
  status_code resp = 200 →
  json resp = Some data →
  Py.get data "info" (Py.VDict []) = Some info →
  urls_to_check info = Some (pre ++ Py.VStr u :: post)%list →
  Forall passed_over pre →
  Py.contains "github.com" (Py.lower u) = true →
  parse_github_repo u ≠ "" →
  result (get_github_repo_from_pypi w pkg_name) = parse_github_repo u.
Proof.
  intros Hget Hstatus Hjson Hinfo Hurls Hpre Hmark Hparse.
  rewrite pypi_result, Hget. cbn [mbind option_bind]. unfold pypi_body.
  rewrite Hstatus, Hjson. cbn -[scan_urls urls_to_check Py.get].
  rewrite Hinfo. cbn -[scan_urls urls_to_check].
  rewrite Hurls. cbn -[scan_urls].
  by rewrite scan_urls_pass, scan_urls_hit.
Qed.

Lemma pypi_first_parsable_candidate_wins_witness :
  result (get_github_repo_from_pypi registry_shouting "numpy") = "numpy/numpy".
Proof.
  refine (pypi_first_parsable_candidate_wins registry_shouting "numpy"
            _ _ _ [Py.VStr "https://GitHub.com/numpy/numpy"] []
            "https://github.com/numpy/numpy"
            eq_refl eq_refl eq_refl eq_refl eq_refl _ eq_refl _).
  - constructor; [|constructor]. right.
    exists "https://GitHub.com/numpy/numpy". split; reflexivity.
  - vm_compute. discriminate.
Defined.

(** X8: the registry lookup absorbs every failure of the response and
    returns the empty result: the request raises, the status is not 200,
    the body is not JSON, the JSON value or its ["info"] is not an
    object, or ["project_urls"] is a true value that is not an object. *)
Theorem pypi_absorbs_failures (w : World) (pkg_name : string) :
  (requests_get w (pypi_url pkg_name) = None →
   result (get_github_repo_from_pypi w pkg_name) = "")
  ∧ (∀ resp,
       requests_get w (pypi_url pkg_name) = Some resp →
       status_code resp ≠ 200
       ∨ json resp = None
       ∨ (∃ data, json resp = Some data ∧ ∀ d, data ≠ Py.VDict d)
       ∨ (∃ d info, json resp = Some (Py.VDict d)
                    ∧ Py.assoc "info" d = Some info ∧ ∀ i, info ≠ Py.VDict i)
       ∨ (∃ d i urls, json resp = Some (Py.VDict d)
                      ∧ Py.assoc "info" d = Some (Py.VDict i)
                      ∧ Py.assoc "project_urls" i = Some urls
                      ∧ Py.truthy urls = true ∧ ∀ m, urls ≠ Py.VDict m) →
       result (get_github_repo_from_pypi w pkg_name) = "").
Proof.
  split.
  - intros Hget. by rewrite pypi_result, Hget.
  - intros resp Hget Hfail. rewrite pypi_result, Hget.
    cbn [mbind option_bind]. unfold pypi_body.
    destruct (status_code resp =? 200) eqn:Hst; [|done].
    apply Z.eqb_eq in Hst.
    destruct Hfail as [?|[->|[(data & -> & Hd)|[(d & info & -> & Hinfo & Hi)
                      |(d & i & urls & -> & Hinfo & Hurls & Ht & Hm)]]]];
      [done|done|..].
    + destruct data; try done. by destruct (Hd d).
    + cbn. rewrite Hinfo. destruct info; try done. by destruct (Hi d0).
    + cbn. rewrite Hinfo. cbn. rewrite Hurls. unfold Py.or_. rewrite Ht.
      destruct urls; try done. by destruct (Hm d0).
Qed.

Lemma pypi_absorbs_failures_witness :
  result (get_github_repo_from_pypi offline "numpy") = ""
  ∧ result (get_github_repo_from_pypi not_found "numpy") = ""
  ∧ result (get_github_repo_from_pypi (serving ["<html>"]) "numpy") = "".
Proof.
  split; [|split].
  - apply (proj1 (pypi_absorbs_failures offline "numpy")). reflexivity.
  - apply (proj2 (pypi_absorbs_failures not_found "numpy")
             {| status_code := 404; json := None; strings := ["Not Found"] |});
      [reflexivity|]. left. discriminate.
  - apply (proj2 (pypi_absorbs_failures (serving ["<html>"]) "numpy")
             {| status_code := 200; json := None; strings := ["<html>"] |});
      [reflexivity|]. right; left. reflexivity.
Defined.

(** X9: a candidate that is true and not a string, met before any
    accepted URL, ends the scan with an exception: the lookup returns
    the empty result although a repository URL follows. *)
Theorem pypi_bad_candidate_hides_later_urls (w : World) (pkg_name : string)
    (resp : response) (data info : Py.value) (pre post : list Py.value)
    (v : Py.value) :
  requests_get w (pypi_url pkg_name) = Some resp →
  status_code resp = 200 →
  json resp = Some data →
  Py.get data "info" (Py.VDict []) = Some info →
  urls_to_check info = Some (pre ++ v :: post)%list →
  Forall passed_over pre →
  Py.truthy v = true → (∀ u, v ≠ Py.VStr u) →
  result (get_github_repo_from_pypi w pkg_name) = "".
Proof.
  intros Hget Hstatus Hjson Hinfo Hurls Hpre Hv Hstr.
  rewrite pypi_result, Hget. cbn [mbind option_bind]. unfold pypi_body.
  rewrite Hstatus, Hjson. cbn -[scan_urls urls_to_check Py.get].
  rewrite Hinfo. cbn -[scan_urls urls_to_check].
  rewrite Hurls. cbn -[scan_urls].
  by rewrite scan_urls_raises.
Qed.

Lemma pypi_bad_candidate_hides_later_urls_witness :
  result (get_github_repo_from_pypi registry_with_number "numpy") = "".
Proof.
  refine (pypi_bad_candidate_hides_later_urls registry_with_number "numpy"
            _ _ _ [Py.VStr "https://numpy.org"]
            [Py.VStr "https://github.com/numpy/numpy"] (Py.VInt 7)
            eq_refl eq_refl eq_refl eq_refl eq_refl _ eq_refl _).
  - constructor; [|constructor]. left. reflexivity.
  - discriminate.
Defined.

(** X10: when the metadata has no ["project_urls"], or a false one
    ([null], an empty mapping), the only candidate is the home page, or
    the empty string when there is no ["home_page"] either. *)
Theorem urls_to_check_without_project_urls (info : list (string * Py.value)) :
  (Py.assoc "project_urls" info = None
   ∨ ∃ v, Py.assoc "project_urls" info = Some v ∧ Py.truthy v = false) →
  urls_to_check (Py.VDict info)
  = Some [match Py.assoc "home_page" info with
          | Some home_page => home_page
          | None => Py.VStr ""
          end].
Proof.
  intros Hpu. unfold urls_to_check. cbn.
  destruct Hpu as [->|(v & -> & Hv)]; cbn.
  - done.
  - unfold Py.or_. by rewrite Hv.
Qed.

Lemma urls_to_check_without_project_urls_witness :
  urls_to_check (Py.VDict [("home_page", Py.VStr "https://numpy.org");
                           ("project_urls", Py.VNone)])
  = Some [Py.VStr "https://numpy.org"].
Proof.
  apply (urls_to_check_without_project_urls
           [("home_page", Py.VStr "https://numpy.org"); ("project_urls", Py.VNone)]).
  right. exists Py.VNone. split; reflexivity.
Defined.

(** X11: whatever the fallback lookup returns, other than the empty
    result, is the parser's result on the ["repository_url"] string of a
    status-200 JSON response, and that URL contains the marker in some
    casing. *)
Theorem librariesio_result_is_parsed_repository_url (w : World)
    (pkg_name repo_id : string) :
  result (get_github_repo_from_librariesio w pkg_name) = inr repo_id →
  repo_id ≠ "" →
  ∃ resp data u,
    requests_get w (librariesio_url w pkg_name) = Some resp
    ∧ status_code resp = 200
    ∧ json resp = Some data
    ∧ Py.get data "repository_url" (Py.VStr "") = Some (Py.VStr u)
    ∧ Py.contains "github.com" (Py.lower u) = true
    ∧ repo_id = parse_github_repo u.
Proof. apply librariesio_sound. Qed.

Lemma librariesio_result_is_parsed_repository_url_witness :
  ∃ u, Py.contains "github.com" (Py.lower u) = true
       ∧ result (get_github_repo_from_librariesio fallback_only "requests")
         = inr (parse_github_repo u).
Proof.
  destruct (librariesio_result_is_parsed_repository_url fallback_only "requests"
              "psf/requests")
    as (resp & data & u & _ & _ & _ & _ & Hmark & Hu).
  - reflexivity.
  - discriminate.
  - exists u. split; [done|]. by rewrite <-Hu.
Defined.

(** X12: when the registry yields a repository, the resolver returns it
    and requests nothing else, whether or not a fallback key is
    configured, and whether or not there is a secrets file. *)
Theorem resolver_prefers_registry (w : World) (pkg_name : string) :
  result (get_github_repo_from_pypi w pkg_name) ≠ "" →
  resolve_github_repo_from_package w pkg_name
  = (inr (result (get_github_repo_from_pypi w pkg_name)),
     requested (get_github_repo_from_pypi w pkg_name)).
Proof.
  intros Hne%truthy_str_true.
  unfold resolve_github_repo_from_package, bind, result in *.
  rewrite Hne. reflexivity.
Qed.

Lemma resolver_prefers_registry_witness :
  resolve_github_repo_from_package both_services "numpy"
  = (inr "numpy/numpy", [pypi_url "numpy"]).
Proof.
  rewrite (resolver_prefers_registry both_services "numpy").
  - reflexivity.
  - vm_compute. discriminate.
Defined.

(** X13: whatever the resolver returns, other than the empty result, is
    the parser's result on a URL that contains the marker in some
    casing; it has exactly one ['/']. *)
Theorem resolver_result_is_parsed_url (w : World) (pkg_name repo_id : string) :
  result (resolve_github_repo_from_package w pkg_name) = inr repo_id →
  repo_id ≠ "" →
  (∃ u, Py.contains "github.com" (Py.lower u) = true
        ∧ repo_id = parse_github_repo u)
  ∧ List.length (segments repo_id) = 2%nat.
Proof.
  intros Hres Hne. destruct (resolve_sound w pkg_name _ Hres Hne) as (u & Hmark & Hu).
  split; [by exists u|]. rewrite Hu in Hne |- *.
  by apply parse_github_repo_slashes.
Qed.

Lemma resolver_result_is_parsed_url_witness :
  result (resolve_github_repo_from_package fallback_only "requests")
  = inr "psf/requests"
  ∧ List.length (segments "psf/requests") = 2%nat.
Proof.
  split; [reflexivity|].
  apply (resolver_result_is_parsed_url fallback_only "requests" "psf/requests").
  - reflexivity.
  - discriminate.
Defined.



(** ** Dependents count: further properties *)

(** X14: the count is never negative, whatever the page holds. *)
Theorem get_repo_deps_is_nonnegative (w : World) (github_id : string) :
  0 ≤ result (get_repo_deps_via_github w github_id).
Proof. apply get_repo_deps_nonneg. Qed.

(** X15: the count is 0 whenever nothing can be read: the request
    raises, the status is not 200, or no text node of the page holds the
    phrase; no failure reaches the caller. *)
Theorem get_repo_deps_absorbs_failures (w : World) (github_id : string) :
  (requests_get w (dependents_url github_id) = None →
   result (get_repo_deps_via_github w github_id) = 0)
  ∧ (∀ r, requests_get w (dependents_url github_id) = Some r →
          status_code r ≠ 200
          ∨ Forall (λ node, is_match (Re.search false repositories_re node) = false)
              (strings r) →
          result (get_repo_deps_via_github w github_id) = 0).
Proof.
  destruct (get_repo_deps_zero w github_id) as (Hraise & Hstatus & Hfind).
  split; [done|]. intros r Hget [Hst|Hnodes]; [by apply (Hstatus r)|].
  apply (Hfind r Hget). unfold soup_find.
  induction Hnodes as [|node nodes Hnode _ IH]; [done|].
  cbn [List.find]. by rewrite Hnode.
Qed.

Lemma get_repo_deps_absorbs_failures_witness :
  result (get_repo_deps_via_github offline "numpy/numpy") = 0
  ∧ result (get_repo_deps_via_github not_found "numpy/numpy") = 0
  ∧ result (get_repo_deps_via_github (serving ["Dependents"; "56 Packages"])
              "numpy/numpy") = 0.
Proof.
  split; [|split].
  - apply (proj1 (get_repo_deps_absorbs_failures offline "numpy/numpy")).
    reflexivity.
  - apply (proj2 (get_repo_deps_absorbs_failures not_found "numpy/numpy")
             {| status_code := 404; json := None; strings := ["Not Found"] |});
      [reflexivity|]. left. discriminate.
  - apply (proj2 (get_repo_deps_absorbs_failures
                    (serving ["Dependents"; "56 Packages"]) "numpy/numpy")
             {| status_code := 200; json := None;
                strings := ["Dependents"; "56 Packages"] |});
      [reflexivity|]. right. repeat constructor.
Defined.

Lemma remove_char_digits (num : string) :
  all_chars digit_or_comma num = true →
  all_chars Py.isdigit (Py.remove_char "," num) = true.
Proof.
  induction num as [|c num IH]; [done|]. cbn [all_chars Py.remove_char].
  intros [Hc Hnum]%andb_true_iff. specialize (IH Hnum).
  unfold digit_or_comma, chr_is in Hc.
  destruct (Ascii.eqb "," c); [done|]. cbn [all_chars].
  rewrite orb_false_r in Hc. rewrite IH. unfold Py.isdigit. by rewrite Hc.
Qed.

Lemma remove_char_length (c : ascii) (s : string) :
  (String.length (Py.remove_char c s) ≤ String.length s)%nat.
Proof.
  induction s as [|c' s IH]; [done|]. cbn [Py.remove_char].
  destruct (Ascii.eqb c c'); cbn [String.length]; lia.
Qed.

Lemma int_digits_total (s : string) :
  all_chars Py.isdigit s = true → ∀ acc, ∃ n, Py.int_digits acc s = Some n.
Proof.
  induction s as [|c s IH]; intros Hs acc; cbn [Py.int_digits].
  { by exists acc. }
  cbn [all_chars] in Hs. apply andb_true_iff in Hs as [-> Hs]. by apply IH.
Qed.

(** Within the digit limit [int] reads every non-empty string of digits. *)
Lemma int_within_limit (s : string) :
  s ≠ "" → (N.of_nat (String.length s) ≤ Py.int_max_str_digits)%N →
  Py.int s = Py.int_digits 0 s.
Proof.
  intros Hne Hlen. unfold Py.int. destruct s as [|c s]; [done|].
  by apply N.ltb_ge in Hlen as ->.
Qed.

(** X16: when the first text node with the phrase holds nothing
    digit-like before the phrase, the count is what [int] reads in the
    number of the phrase with its commas removed, and 0 when [int]
    refuses it: when the number is commas only, or has more digits than
    the limit of [int].  A number within that limit that has a digit is
    read as the decimal number it is. *)
Theorem get_repo_deps_reads_phrase_number (w : World) (github_id : string)
    (r : response) (before after : list string) (pre num sp post : string) :
  requests_get w (dependents_url github_id) = Some r →
  status_code r = 200 →
  strings r
  = (before ++ (pre ++ num ++ sp ++ "Repositories" ++ post)%string :: after)%list →
  Forall (λ node, is_match (Re.search false repositories_re node) = false) before →
  all_chars no_digit_or_comma pre = true →
  num ≠ "" → all_chars digit_or_comma num = true →
  sp ≠ "" → all_chars Py.isspace sp = true →
  result (get_repo_deps_via_github w github_id)
  = match Py.int (Py.remove_char "," num) with Some n => n | None => 0 end
  ∧ (Py.remove_char "," num ≠ "" →
     (N.of_nat (String.length num) ≤ Py.int_max_str_digits)%N →
     ∃ n, Py.int_digits 0 (Py.remove_char "," num) = Some n
          ∧ result (get_repo_deps_via_github w github_id) = n)
  ∧ ((Py.int_max_str_digits
      < N.of_nat (String.length (Py.remove_char "," num)))%N →
     result (get_repo_deps_via_github w github_id) = 0).
Proof.
  intros Hget Hst Hnodes Hbefore Hpre Hnum Hnumc Hsp Hspc.
  assert (result (get_repo_deps_via_github w github_id)
          = match Py.int (Py.remove_char "," num) with
            | Some n => n
            | None => 0
            end) as Hcount.
  { change (result (get_repo_deps_via_github w github_id))
      with (try_except (requests_get w (dependents_url github_id) ≫= deps_body) 0).
    rewrite Hget. cbn [mbind option_bind].
    by erewrite deps_body_phrase. }
  split; [done|]. split.
  - intros Hdigits Hlen.
    destruct (int_digits_total _ (remove_char_digits num Hnumc) 0) as [n Hn].
    exists n. split; [done|].
    rewrite Hcount, int_within_limit, Hn; [done|done|].
    pose proof (remove_char_length "," num). lia.
  - intros Hlen. rewrite Hcount. unfold Py.int.
    destruct (Py.remove_char "," num); [done|].
    by apply N.ltb_lt in Hlen as ->.
Qed.

Lemma get_repo_deps_reads_phrase_number_witness :
  result (get_repo_deps_via_github
            (serving ["Dependents"; "  1,234   Repositories  "; "56 Packages"])
            "numpy/numpy") = 1234.
Proof.
  refine (proj1 (get_repo_deps_reads_phrase_number
            (serving ["Dependents"; "  1,234   Repositories  "; "56 Packages"])
            "numpy/numpy"
            {| status_code := 200; json := None;
               strings := ["Dependents"; "  1,234   Repositories  "; "56 Packages"] |}
            ["Dependents"] ["56 Packages"] "  " "1,234" "   " "  "
            eq_refl eq_refl eq_refl _ eq_refl _ eq_refl _ eq_refl)).
  - constructor; [reflexivity|constructor].
  - discriminate.
  - discriminate.
Defined.

(** ** Aggregator: further properties *)

(** X18: items are read piece by piece: the empty text has no item, a
    text without separators is one item, and two texts joined by a
    separator give the items of the first followed by the items of the
    second. *)
Theorem tokenize_by_separators :
  tokenize "" = []
  ∧ (∀ t, t ≠ "" → all_chars not_separator t = true → tokenize t = [t])
  ∧ (∀ a b c, separator c = true →
       tokenize (a ++ String c b) = (tokenize a ++ tokenize b)%list).
Proof.
  split; [done|]. split; [apply tokenize_item|].
  intros a b c. apply tokenize_app.
Qed.

Lemma tokenize_by_separators_witness :
  tokenize ("numpy" ++ String "," " pandas-dev/pandas")
  = (["numpy"] ++ tokenize " pandas-dev/pandas")%list.
Proof.
  destruct tokenize_by_separators as (_ & Hitem & Happ).
  rewrite Happ by reflexivity.
  rewrite (Hitem "numpy") by (done || reflexivity).
  reflexivity.
Defined.

(** X19: the aggregator raises [KeyError] exactly when the text has no
    item, and the error of the missing secrets file exactly when there
    is no such file and some item is no repository id and is unknown to
    the registry.  When the counts of the dependents pages are in the
    range that the numeric column holds as they are, these are its only
    errors, and it returns a table in all other cases. *)
Theorem aggregate_statistics_raises_in_two_cases `{SortValues} (w : World)
    (input_text : string) :
  (result (aggregate_statistics w input_text)
   = inl (KeyError "Number of dependents")
   ↔ tokenize input_text = [])
  ∧ (result (aggregate_statistics w input_text)
     = inl StreamlitSecretNotFoundError
     ↔ secrets w = None ∧ Exists (needs_secret w) (tokenize input_text))
  ∧ (exact_counts w →
     ((∃ df, result (aggregate_statistics w input_text) = inr df)
      ↔ tokenize input_text ≠ []
        ∧ ¬ (secrets w = None
             ∧ Exists (needs_secret w) (tokenize input_text)))
     ∧ (∀ e, result (aggregate_statistics w input_text) = inl e →
          e = KeyError "Number of dependents"
          ∨ e = StreamlitSecretNotFoundError)).
Proof.
  unfold aggregate_statistics. rewrite bind_exn_result.
  destruct (tokenize input_text) as [|lib items] eqn:Htok.
  { cbn. split; [done|]. split; [|intros _; split].
    - split; [done|]. intros [_ Hex]. by apply Exists_nil in Hex.
    - split; [by intros [df ?]|by intros [? _]].
    - intros e [= <-]. by left. }
  destruct (result (loop w (lib :: items) (∅, []))) as [e|st] eqn:Hloop.
  - pose proof Hloop as (-> & Hfile & Hex)%loop_raises.
    split; [done|]. split; [done|]. intros _. split.
    + split; [by intros [df ?]|]. intros [_ Hnot]. by destruct Hnot.
    + intros e [= <-]. by right.
  - assert (¬ (secrets w = None ∧ Exists (needs_secret w) (lib :: items)))
      as Hnot.
    { intros [Hfile Hex].
      assert (result (loop w (lib :: items) (∅, []))
              = inl StreamlitSecretNotFoundError) as Hraise
        by by apply loop_raises.
      congruence. }
    apply loop_emits_first in Hloop. cbn [ret result fst].
    destruct st as [added [|r rows]]; [done|]. cbn.
    split; [done|]. split; [done|]. intros _. split; [|done].
    split; [done|]. intros _. by eexists.
Qed.

Lemma aggregate_statistics_raises_in_two_cases_witness :
  result (@aggregate_statistics merge_reorder without_secrets_file
            "a/b nowhere") = inl StreamlitSecretNotFoundError
  ∧ ∃ df, result (@aggregate_statistics merge_reorder offline "a/b nowhere")
          = inr df.
Proof.
  split.
  - apply (proj1 (proj2 (@aggregate_statistics_raises_in_two_cases merge_reorder
                           without_secrets_file "a/b nowhere"))).
    split; [reflexivity|]. apply Exists_cons_tl, Exists_cons_hd.
    split; reflexivity.
  - apply (proj1 (proj2 (proj2 (@aggregate_statistics_raises_in_two_cases
                                  merge_reorder offline "a/b nowhere"))
                    ltac:(by intros github_id; vm_compute))).
    split; [by vm_compute|]. by intros [? _].
Defined.

(** X20: every record of the table is named after an item of the text:
    the names are, up to the final reordering, a sublist of the items,
    so there are at most as many records as items. *)
Theorem table_rows_are_named_after_items `{SortValuesLaws} (w : World)
    (input_text : string) (df : DataFrame) :
  result (aggregate_statistics w input_text) = inr df →
  (∃ names, names `sublist_of` tokenize input_text
            ∧ Name <$> records df ≡ₚ names)
  ∧ (List.length (records df) ≤ List.length (tokenize input_text))%nat.
Proof.
  intros (rows & Hrows & ->)%aggregate_statistics_records.
  unfold emitted in Hrows.
  destruct (result (loop w (tokenize input_text) (∅, []))) as [e|st] eqn:Hloop;
    [done|].
  injection Hrows as <-.
  destruct (loop_names w (tokenize input_text) ∅ [] st Hloop)
    as (names & Hsub & Hnames).
  cbn in Hnames.
  split.
  - exists names. split; [done|]. by rewrite reorder_perm, Hnames.
  - rewrite (Permutation_length (reorder_perm _)).
    rewrite <-(length_fmap Name), Hnames. by apply sublist_length.
Qed.

Lemma table_rows_are_named_after_items_witness :
  ∃ df,
    result (@aggregate_statistics merge_reorder registry_with_numpy
              "numpy, https://github.com/numpy/numpy") = inr df
    ∧ (List.length (records df) ≤ 2)%nat.
Proof.
  eexists. split; [reflexivity|].
  apply (@table_rows_are_named_after_items merge_reorder _ registry_with_numpy
           "numpy, https://github.com/numpy/numpy" _ eq_refl).
Defined.

(** X21: no two records of the table have the same repository link. *)
Theorem table_has_no_repository_twice `{SortValuesLaws} (w : World)
    (input_text : string) (df : DataFrame) :
  result (aggregate_statistics w input_text) = inr df →
  NoDup (omap GitHub_Repo (records df)).
Proof.
  intros (rows & Hrows & ->)%aggregate_statistics_records.
  rewrite reorder_perm. unfold emitted in Hrows.
  destruct (result (loop w (tokenize input_text) (∅, []))) as [e|st] eqn:Hloop;
    [done|].
  injection Hrows as <-.
  apply (loop_seen_inv w (tokenize input_text) (∅, []) st); [|done].
  split; [by intros r link ?%elem_of_nil|constructor].
Qed.

Lemma table_has_no_repository_twice_witness :
  ∃ df,
    result (@aggregate_statistics merge_reorder registry_with_numpy
              "numpy, https://github.com/numpy/numpy numpy/numpy a/b") = inr df
    ∧ NoDup (omap GitHub_Repo (records df)).
Proof.
  eexists. split; [reflexivity|].
  apply (@table_has_no_repository_twice merge_reorder _ registry_with_numpy
           "numpy, https://github.com/numpy/numpy numpy/numpy a/b" _ eq_refl).
Defined.

(** X22: the table has the four columns, and each record either knows
    nothing (no count, no links) or has a count that is not negative, a
    repository link [https://github.com/<id>] whose id has exactly one
    ['/'], and as its dependents page the address the count was read
    from. *)
Theorem table_rows_are_well_formed `{SortValuesLaws} (w : World)
    (input_text : string) (df : DataFrame) :
  result (aggregate_statistics w input_text) = inr df →
  columns df = COLUMNS ∧ Forall row_shape (records df).
Proof.
  intros Hdf. split.
  - revert Hdf. rewrite aggregate_statistics_result.
    destruct (emitted w input_text) as [e|[|r rows]]; [done|done|].
    by intros [= <-].
  - apply aggregate_statistics_records in Hdf as (rows & Hrows & ->).
    rewrite reorder_perm. unfold emitted in Hrows.
    destruct (result (loop w (tokenize input_text) (∅, []))) as [e|st] eqn:Hloop;
      [done|].
    injection Hrows as <-.
    by apply (loop_row_shape w (tokenize input_text) (∅, []) st).
Qed.

Lemma table_rows_are_well_formed_witness :
  ∃ df,
    result (@aggregate_statistics merge_reorder ranking_world
              "a/five b/zero nowhere d/twelve") = inr df
    ∧ Forall row_shape (records df).
Proof.
  eexists. split; [reflexivity|].
  apply (@table_rows_are_well_formed merge_reorder _ ranking_world
           "a/five b/zero nowhere d/twelve" _ eq_refl).
Defined.

(** X23: a run requests nothing but registry metadata, dependents pages
    and, only when a key is configured, fallback metadata. *)
Theorem aggregate_statistics_request_targets `{SortValues} (w : World)
    (input_text : string) :
  Forall (request_target w) (requested (aggregate_statistics w input_text))
  ∧ (truthy_secret (secrets_get w API_KEY) = false →
     Forall (λ url, (∃ pkg_name, url = pypi_url pkg_name)
                    ∨ ∃ github_id, url = dependents_url github_id)
       (requested (aggregate_statistics w input_text))).
Proof.
  assert (Forall (request_target w)
            (requested (aggregate_statistics w input_text))) as Hall.
  { unfold aggregate_statistics. rewrite requested_bind_exn. apply Forall_app.
    split; [apply loop_requested|].
    destruct (result (loop w (tokenize input_text) (∅, []))); by constructor. }
  split; [done|]. intros Hkey.
  eapply Forall_impl; [exact Hall|].
  intros url [?|[?|[Hkey' _]]]; [by left|by right|congruence].
Qed.

Lemma aggregate_statistics_request_targets_witness :
  Forall (λ url, (∃ pkg_name, url = pypi_url pkg_name)
                 ∨ ∃ github_id, url = dependents_url github_id)
    (requested (@aggregate_statistics merge_reorder registry_with_numpy
                  "numpy requests a/b")).
Proof.
  apply (@aggregate_statistics_request_targets merge_reorder registry_with_numpy
           "numpy requests a/b").
  reflexivity.
Defined.
